(** * Nasir Store API: a shallow embedding of [main.py] and [schemas.py]

    The endpoints of the storefront backend are embedded as functions in a
    state-and-exception monad over a document store.  Python dictionaries
    are finite maps, MongoDB collections are lists of documents in natural
    order, and an exception leaves the store as it was when it was raised. *)

From Stdlib Require Import Floats DecimalString DecimalNat.
From stdpp Require Import gmap strings list fin_maps.

(** ** Values and documents *)

(** The 12-byte identifier that the driver mints for an inserted document. *)
Definition ObjectId := N.

(** [datetime.utcnow()]: a naive timestamp, to the microsecond. *)
Record datetime := {
  year : nat; month : nat; day : nat;
  hour : nat; minute : nat; second : nat;
  microsecond : N
}.

(** The Python/BSON values that occur in documents and JSON responses. *)
#[warnings="-register-all"]
Inductive value :=
| VNone
| VBool (b : bool)
| VInt (z : Z)
| VFloat (f : float)
| VStr (s : string)
| VOid (o : ObjectId)
| VDate (t : datetime)
| VUrl (u : string)              (* pydantic's [Url] object; no BSON type *)
| VList (l : list value)
| VDict (m : gmap string value).

(** A Python [dict] with string keys. *)
Abbreviation dict := (gmap string value).

(** A stored document: the [_id] the collection indexes it by, and the
    remaining fields.  The API never supplies an [_id] of its own, so every
    [_id] is an [ObjectId]. *)
Record document := { oid : ObjectId; fields : dict }.

(** The dictionary pymongo hands back for a stored document. *)
Definition as_dict (d : document) : dict :=
  <["_id" := VOid (oid d)]> (fields d).

(** [db]: collection name to documents, in natural (insertion) order. *)
Abbreviation database := (gmap string (list document)).

Definition coll (db : database) (name : string) : list document :=
  default [] (db !! name).

(** ** Library functions the code calls

    Builtins and third-party functions whose results the endpoints only pass
    along.  They are an interface; [ascii_platform] below is one instance. *)
Class Platform := {
  (** [str(x)] *)
  py_str : value → string;
  (** [s.lower()] *)
  str_lower : string → string;
  (** [float(s)] for a [str]; [None] is [ValueError] *)
  float_of_str : string → option float;
  (** pydantic's [EmailStr]: the normalised address, or [None] if rejected *)
  validate_email : string → option string;
  (** the server's [$regex] with [$options: "i"]: the compiled matcher, or
      [None] for a pattern it rejects *)
  regex_i : string → option (string → bool)
}.

(** ** Exceptions and the endpoint monad *)

Inductive error :=
| HTTPException (status_code : Z) (detail : string)
| RequestValidationError     (* FastAPI rejects the request: 422 *)
| ValidationError            (* pydantic model construction *)
| TypeError
| ValueError
| KeyError
| OverflowError
| DuplicateKeyError          (* pymongo *)
| InvalidDocument            (* bson: a value it cannot encode *)
| OperationFailure.          (* pymongo *)

Inductive outcome (A : Type) :=
| Return (a : A)
| Raise (e : error).
Arguments Return {A} a.
Arguments Raise {A} e.

Definition api (A : Type) : Type := database → outcome A * database.

Definition ret {A} (a : A) : api A := λ db, (Return a, db).
Definition raise {A} (e : error) : api A := λ db, (Raise e, db).
Definition bind {A B} (c : api A) (k : A → api B) : api B :=
  λ db, match c db with
        | (Return a, db') => k a db'
        | (Raise e, db') => (Raise e, db')
        end.
(** Lift a computation that touches no collection. *)
Definition pure_step {A} (o : outcome A) : api A := λ db, (o, db).

Declare Scope api_scope.
Delimit Scope api_scope with api.
Notation "x ⇐ c ;; k" := (bind c (λ x, k))
  (at level 100, c at next level, right associativity) : api_scope.
Notation "c ;;; k" := (bind c (λ _, k))
  (at level 100, right associativity) : api_scope.
Local Open Scope api_scope.

(** ** The MongoDB operations used by the endpoints *)

(** The values the endpoints put in an equality filter. *)
Inductive qvalue := QBool (b : bool) | QStr (s : string).

Inductive condition :=
| Equals (q : qvalue)            (* {key: q} *)
| RegexI (pattern : string).     (* {key: {"$regex": pattern, "$options": "i"}} *)

Inductive clause :=
| Field (key : string) (c : condition)
| Or (alts : list (string * condition))    (* {"$or": [{k1: c1}, ...]} *)
| Id (v : value).                           (* {"_id": v} *)

(** A filter dictionary: all clauses must hold. *)
Definition query := list clause.

Definition eq_scalar (q : qvalue) (v : value) : bool :=
  match q, v with
  | QBool b, VBool b' => bool_decide (b = b')
  | QStr s, VStr s' => bool_decide (s = s')
  | _, _ => false
  end.

(** MongoDB matches [{key: q}] when the field equals [q] or is an array with
    an element equal to [q]; an absent field matches neither. *)
Definition eq_match (q : qvalue) (v : option value) : bool :=
  match v with
  | Some (VList l) => existsb (eq_scalar q) l
  | Some v => eq_scalar q v
  | None => false
  end.

Definition str_match (re : string → bool) (v : value) : bool :=
  match v with
  | VStr s => re s
  | _ => false
  end.

Definition regex_match (re : string → bool) (v : option value) : bool :=
  match v with
  | Some (VList l) => existsb (str_match re) l
  | Some v => str_match re v
  | None => false
  end.

Section Mongo.
Context `{Platform}.

Definition cond_ok (c : condition) : bool :=
  match c with
  | Equals _ => true
  | RegexI p => bool_decide (is_Some (regex_i p))
  end.

Definition clause_ok (c : clause) : bool :=
  match c with
  | Field _ c => cond_ok c
  | Or alts => forallb (λ kc, cond_ok kc.2) alts
  | Id _ => true
  end.

(** The server parses the whole filter before it looks at any document. *)
Definition query_ok (q : query) : bool := forallb clause_ok q.

Definition cond_holds (c : condition) (v : option value) : bool :=
  match c with
  | Equals q => eq_match q v
  | RegexI p => match regex_i p with
                | Some re => regex_match re v
                | None => false
                end
  end.

Definition clause_holds (d : document) (c : clause) : bool :=
  match c with
  | Field k c => cond_holds c (fields d !! k)
  | Or alts => existsb (λ kc, cond_holds kc.2 (fields d !! kc.1)) alts
  | Id (VOid o) => bool_decide (oid d = o)
  | Id _ => false
  end.

Definition matches (q : query) (d : document) : bool :=
  forallb (clause_holds d) q.

(** [db[name].find(q)], read to the end; [limit] is applied by the caller. *)
Definition find (name : string) (q : query) : api (list dict) :=
  λ db, if query_ok q
        then (Return (as_dict <$> List.filter (matches q) (coll db name)), db)
        else (Raise OperationFailure, db).

(** [db[name].find_one(q)] *)
Definition find_one (name : string) (q : query) : api (option dict) :=
  λ db, if query_ok q
        then (Return (as_dict <$> List.find (matches q) (coll db name)), db)
        else (Raise OperationFailure, db).

(** [db[name].count_documents(q)] *)
Definition count_documents (name : string) (q : query) : api nat :=
  λ db, if query_ok q
        then (Return (length (List.filter (matches q) (coll db name))), db)
        else (Raise OperationFailure, db).

(** What the BSON encoder takes: every value but a [Url] object, through
    lists and dictionaries.  (The integers the endpoints store are ratings
    from 1 to 5, far inside BSON's eight bytes.) *)
Fixpoint encodable (v : value) : bool :=
  match v with
  | VUrl _ => false
  | VList l => forallb encodable l
  | VDict m => map_fold (λ _ x rest, encodable x && rest) true m
  | _ => true
  end.

(** BSON keeps a date to the millisecond. *)
Definition to_millis (t : datetime) : datetime :=
  {| year := year t; month := month t; day := day t;
     hour := hour t; minute := minute t; second := second t;
     microsecond := (microsecond t / 1000 * 1000)%N |}.

(** A value as it is read back once stored. *)
Fixpoint as_stored (v : value) : value :=
  match v with
  | VDate t => VDate (to_millis t)
  | VList l => VList (as_stored <$> l)
  | VDict m => VDict (as_stored <$> m)
  | v => v
  end.

(** [db[name].insert_one(doc)] for a [doc] without [_id]: the driver mints
    [o] and encodes the document, which fails on a value BSON has no type
    for; the unique index on [_id] rejects an identifier already present. *)
Definition insert_one (name : string) (o : ObjectId) (doc : dict) : api ObjectId :=
  λ db, if negb (encodable (VDict doc))
        then (Raise InvalidDocument, db)
        else if bool_decide (o ∈ (oid <$> coll db name))
        then (Raise DuplicateKeyError, db)
        else (Return o,
              <[name := coll db name
                  ++ [{| oid := o; fields := as_stored <$> doc |}]]> db).

(** [$set]: the given fields replace or extend those of the document. *)
Definition apply_set (set : dict) (d : document) : document :=
  {| oid := oid d; fields := set ∪ fields d |}.

Fixpoint update_first (q : query) (set : dict) (l : list document) : list document :=
  match l with
  | [] => []
  | d :: l' =>
      if matches q d
      then apply_set set d :: l'
      else d :: update_first q set l'
  end.

(** [db[name].update_one(q, {"$set": set})] *)
Definition update_one (name : string) (q : query) (set : dict) : api unit :=
  λ db, if negb (encodable (VDict set))
        then (Raise InvalidDocument, db)
        else if query_ok q
        then (Return (),
              match db !! name with
              | Some l => <[name := update_first q (as_stored <$> set) l]> db
              | None => db
              end)
        else (Raise OperationFailure, db).

End Mongo.

(** Truthiness of an optional query-string parameter: absent and empty
    are false. *)
Definition truthy_str (s : option string) : bool :=
  match s with
  | None | Some "" => false
  | Some _ => true
  end.

(** ** Schemas ([schemas.py]) and request bodies *)

(** An [Optional] field: [None] or the value. *)
Definition of_option {A} (inj : A → value) (o : option A) : value :=
  match o with Some a => inj a | None => VNone end.

Definition packages : list string :=
  ["1 Month"; "3 Months"; "6 Months"; "12 Months"; "Lifetime"].

Module Product.
Record t := {
  name : string;
  slug : string;
  description : string;
  short_description : string;
  logo_url : option string;
  category : string;
  durations : list string;
  login_method : string;
  price_monthly : float;
  price_lifetime : option float;
  is_featured : bool;
  is_active : bool
}.

Definition categories : list string :=
  ["Streaming"; "Music"; "Design"; "AI"; "Productivity"; "Education"; "Other"].
Definition login_methods : list string :=
  ["Shared"; "Private"; "Invite"; "Redeem Code"].

(** The field constraints of the model ([Literal], [ge=0]). *)
Definition valid (p : t) : bool :=
  bool_decide (category p ∈ categories)
  && forallb (λ d, bool_decide (d ∈ packages)) (durations p)
  && bool_decide (login_method p ∈ login_methods)
  && (0 <=? price_monthly p)%float
  && match price_lifetime p with Some l => (0 <=? l)%float | None => true end.

Definition dump (p : t) : dict :=
  {[ "name" := VStr (name p);
     "slug" := VStr (slug p);
     "description" := VStr (description p);
     "short_description" := VStr (short_description p);
     "logo_url" := of_option VUrl (logo_url p);
     "category" := VStr (category p);
     "durations" := VList (VStr <$> durations p);
     "login_method" := VStr (login_method p);
     "price_monthly" := VFloat (price_monthly p);
     "price_lifetime" := of_option VFloat (price_lifetime p);
     "is_featured" := VBool (is_featured p);
     "is_active" := VBool (is_active p) ]}.
End Product.

Module Order.
Record t := {
  product_id : string;
  product_name : string;
  package : string;
  price : float;
  buyer_name : string;
  email : string;
  whatsapp : string;
  payment_method : string;
  status : string;
  order_code : option string;
  delivery_channel : string;
  delivery_note : option string;
  delivered_payload : option dict
}.

Definition payment_methods : list string := ["QRIS"; "Bank Transfer"; "E-Wallet"].
Definition statuses : list string := ["pending"; "paid"; "delivered"; "failed"].
Definition delivery_channels : list string := ["email"; "whatsapp"; "both"].

Definition dump (o : t) : dict :=
  {[ "product_id" := VStr (product_id o);
     "product_name" := VStr (product_name o);
     "package" := VStr (package o);
     "price" := VFloat (price o);
     "buyer_name" := VStr (buyer_name o);
     "email" := VStr (email o);
     "whatsapp" := VStr (whatsapp o);
     "payment_method" := VStr (payment_method o);
     "status" := VStr (status o);
     "order_code" := of_option VStr (order_code o);
     "delivery_channel" := VStr (delivery_channel o);
     "delivery_note" := of_option VStr (delivery_note o);
     "delivered_payload" := of_option VDict (delivered_payload o) ]}.
End Order.

Module Testimonial.
(** [rating] has passed [ge=1, le=5] when the endpoint receives the body. *)
Record t := {
  name : string;
  rating : Z;
  comment : string;
  product_slug : option string
}.

Definition valid (b : t) : bool := (1 <=? rating b)%Z && (rating b <=? 5)%Z.

Definition dump (b : t) : dict :=
  {[ "name" := VStr (name b);
     "rating" := VInt (rating b);
     "comment" := VStr (comment b);
     "product_slug" := of_option VStr (product_slug b) ]}.
End Testimonial.

Module ContactMessage.
Record t := {
  name : string;
  email : string;
  whatsapp : option string;
  message : string
}.

Definition dump (b : t) : dict :=
  {[ "name" := VStr (name b);
     "email" := VStr (email b);
     "whatsapp" := of_option VStr (whatsapp b);
     "message" := VStr (message b) ]}.
End ContactMessage.

Module OrderCreate.
Record t := {
  product_slug : string;
  package : string;
  buyer_name : string;
  email : string;
  whatsapp : string;
  payment_method : string;
  delivery_channel : string
}.
End OrderCreate.

Module PaymentNotify.
Record t := {
  order_code : string;
  status : string
}.
End PaymentNotify.

(** What a request draws from outside the store: the clock, and the
    identifiers the driver mints, in the order it mints them. *)
Record env := {
  utcnow : datetime;
  new_oid : nat → ObjectId
}.

(** ** Numbers and time *)

(** [float(n)] for an [int]: round to nearest even; [OverflowError] beyond
    the finite doubles. *)
Definition float_of_int (z : Z) : option float :=
  match binary_normalize prec emax z 0 false with
  | S754_infinity _ => None
  | sf => Some (SF2Prim sf)
  end.

(** Zero-padded decimal, as [strftime] prints its fields. *)
Definition pad (width n : nat) : string :=
  let s := NilEmpty.string_of_uint (Nat.to_uint n) in
  String.concat "" (replicate (width - String.length s) "0") +:+ s.

(** [t.strftime('%Y%m%d%H%M%S')] *)
Definition strftime (t : datetime) : string :=
  pad 4 (year t) +:+ pad 2 (month t) +:+ pad 2 (day t)
  +:+ pad 2 (hour t) +:+ pad 2 (minute t) +:+ pad 2 (second t).

Section Endpoints.
Context `{Platform}.

(** Python truthiness of what [find_one] returns: [None] and the empty
    dictionary are false. *)
Definition truthy_doc (doc : option dict) : bool :=
  match doc with
  | None => false
  | Some d => negb (bool_decide (d = ∅))
  end.

(** [float(x)] *)
Definition py_float (x : value) : outcome float :=
  match x with
  | VFloat f => Return f
  | VInt z => match float_of_int z with
              | Some f => Return f
              | None => Raise OverflowError
              end
  | VBool b => Return (if b then 1 else 0)%float
  | VStr s => match float_of_str s with
              | Some f => Return f
              | None => Raise ValueError
              end
  | _ => Raise TypeError
  end.

(** [doc[key]] *)
Definition getitem (doc : dict) (key : string) : outcome value :=
  match doc !! key with
  | Some v => Return v
  | None => Raise KeyError
  end.

(** [OrderSchema(...)], the keyword arguments as [create_order] passes
    them: [product_name] is whatever the product document holds, the
    others are strings and a float already.  The model is built when every
    field passes; pydantic reports all failures in one [ValidationError].
    A [str] field takes a string only (pydantic 2 does not coerce), [ge=0]
    refuses a negative price and NaN, and [order_code] is always passed. *)
Definition OrderSchema (product_id : string) (product_name : value)
    (package : string) (price : float)
    (buyer_name email whatsapp payment_method status order_code
     delivery_channel : string) : outcome Order.t :=
  match product_name, validate_email email with
  | VStr name, Some email' =>
      if bool_decide (package ∈ packages)
         && (0 <=? price)%float
         && bool_decide (payment_method ∈ Order.payment_methods)
         && bool_decide (status ∈ Order.statuses)
         && bool_decide (delivery_channel ∈ Order.delivery_channels)
      then Return {| Order.product_id := product_id;
                     Order.product_name := name;
                     Order.package := package;
                     Order.price := price;
                     Order.buyer_name := buyer_name;
                     Order.email := email';
                     Order.whatsapp := whatsapp;
                     Order.payment_method := payment_method;
                     Order.status := status;
                     Order.order_code := Some order_code;
                     Order.delivery_channel := delivery_channel;
                     Order.delivery_note := None;
                     Order.delivered_payload := None |}
      else Raise ValidationError
  | _, _ => Raise ValidationError
  end.

(** Modelled from the spec: [create_document] of the [database] module,
    which is not among the sources.  The spec describes the data access as
    direct pass-through to the database driver: the dumped model goes to
    [insert_one] of the named collection as it is, and the identifier of
    the inserted document comes back, as the string the JSON response
    carries. *)
Definition create_document (name : string) (o : ObjectId) (data : dict) : api value :=
  inserted ⇐ insert_one name o data ;;
  ret (VStr (py_str (VOid inserted))).

(** ** Utility *)

Definition to_dict (doc : dict) : dict :=
  if bool_decide (doc = ∅) then doc
  else <["_id" := VStr (py_str (default VNone (doc !! "_id")))]> doc.

(** ** Products *)

Definition list_products (q category : option string) (featured : option bool)
    (limit : option Z) : api (list dict) :=
  let limit := default 100%Z limit in
  if negb ((1 <=? limit)%Z && (limit <=? 200)%Z) then raise RequestValidationError
  else
    let filt := [Field "is_active" (Equals (QBool true))] in
    let filt :=
      if truthy_str category
      then filt ++ [Field "category" (Equals (QStr (default "" category)))]
      else filt in
    let filt :=
      match featured with
      | Some b => filt ++ [Field "is_featured" (Equals (QBool b))]
      | None => filt
      end in
    let filt :=
      if truthy_str q
      then let p := default "" q in
           filt ++ [Or [("name", RegexI p);
                        ("description", RegexI p);
                        ("short_description", RegexI p)]]
      else filt in
    docs ⇐ find "product" filt ;;
    ret (to_dict <$> take (Z.to_nat limit) docs).

Definition get_product (slug : string) : api dict :=
  doc ⇐ find_one "product" [Field "slug" (Equals (QStr slug));
                            Field "is_active" (Equals (QBool true))] ;;
  if negb (truthy_doc doc)
  then raise (HTTPException 404 "Product not found")
  else ret (to_dict (default ∅ doc)).

Definition samples : list Product.t :=
  [ {| Product.name := "Netflix Premium";
       Product.slug := "netflix-premium";
       Product.description := "Akun Netflix Premium kualitas 4K. Garansi sesuai ketentuan. Metode login: Shared Profile.";
       Product.short_description := "Netflix 4K, garansi, hemat.";
       Product.logo_url := Some "https://upload.wikimedia.org/wikipedia/commons/0/08/Netflix_2015_logo.svg";
       Product.category := "Streaming";
       Product.durations := ["1 Month"; "3 Months"; "12 Months"];
       Product.login_method := "Shared";
       Product.price_monthly := 35000%float;
       Product.price_lifetime := None;
       Product.is_featured := true;
       Product.is_active := true |};
    {| Product.name := "Spotify Premium";
       Product.slug := "spotify-premium";
       Product.description := "Spotify Premium no ads, kualitas tinggi. Metode login: Invite Family/Shared.";
       Product.short_description := "Musik bebas iklan.";
       Product.logo_url := Some "https://upload.wikimedia.org/wikipedia/commons/1/19/Spotify_logo_without_text.svg";
       Product.category := "Music";
       Product.durations := ["1 Month"; "3 Months"; "12 Months"];
       Product.login_method := "Shared";
       Product.price_monthly := 15000%float;
       Product.price_lifetime := None;
       Product.is_featured := true;
       Product.is_active := true |};
    {| Product.name := "Canva Pro";
       Product.slug := "canva-pro";
       Product.description := "Canva Pro fitur lengkap. Metode login: Invite ke team.";
       Product.short_description := "Desain tanpa batas.";
       Product.logo_url := Some "https://upload.wikimedia.org/wikipedia/commons/a/af/Canva_icon_2021.svg";
       Product.category := "Design";
       Product.durations := ["1 Month"; "3 Months"; "12 Months"];
       Product.login_method := "Invite";
       Product.price_monthly := 20000%float;
       Product.price_lifetime := None;
       Product.is_featured := true;
       Product.is_active := true |};
    {| Product.name := "ChatGPT Plus";
       Product.slug := "chatgpt-plus";
       Product.description := "Akses GPT-4/Plus sesuai ketentuan penyedia. Metode: Shared.";
       Product.short_description := "AI asisten premium.";
       Product.logo_url := Some "https://upload.wikimedia.org/wikipedia/commons/0/04/ChatGPT_logo.svg";
       Product.category := "AI";
       Product.durations := ["1 Month"; "3 Months"];
       Product.login_method := "Shared";
       Product.price_monthly := 120000%float;
       Product.price_lifetime := None;
       Product.is_featured := false;
       Product.is_active := true |};
    {| Product.name := "YouTube Premium";
       Product.slug := "youtube-premium";
       Product.description := "YouTube Premium bebas iklan. Metode: Invite Family.";
       Product.short_description := "Streaming tanpa iklan.";
       Product.logo_url := Some "https://upload.wikimedia.org/wikipedia/commons/e/ef/Youtube_logo.png";
       Product.category := "Streaming";
       Product.durations := ["1 Month"; "3 Months"; "12 Months"];
       Product.login_method := "Invite";
       Product.price_monthly := 20000%float;
       Product.price_lifetime := None;
       Product.is_featured := false;
       Product.is_active := true |} ].

(** [for p in samples: create_document("product", p)]; the [k]-th
    insertion of the request receives the [k]-th minted identifier. *)
Fixpoint insert_samples (e : env) (k : nat) (ps : list Product.t) : api unit :=
  match ps with
  | [] => ret ()
  | p :: ps' =>
      create_document "product" (new_oid e k) (Product.dump p) ;;;
      insert_samples e (S k) ps'
  end.

Definition seed_products (e : env) : api dict :=
  count ⇐ count_documents "product" [] ;;
  if bool_decide (0 < count)
  then ret {[ "seeded" := VBool false;
              "message" := VStr "Products already exist" ]}
  else
    insert_samples e 0 samples ;;;
    ret {[ "seeded" := VBool true;
           "count" := VInt (Z.of_nat (length samples)) ]}.

(** ** Orders and payments *)

Definition generate_order_code (e : env) : string :=
  "NS-" +:+ strftime (utcnow e).

Definition multiplier_table : gmap string Z :=
  {[ "1 Month" := 1%Z;
     "3 Months" := 3%Z;
     "6 Months" := 6%Z;
     "12 Months" := 12%Z;
     "Lifetime" := 20%Z ]}.

Definition fallback_instruction : dict :=
  {[ "type" := VStr "info"; "note" := VStr "Follow admin instruction" ]}.

Definition instruction_table : gmap string dict :=
  {[ "QRIS" :=
       {[ "type" := VStr "qris";
          "note" := VStr "Scan QR berikut di aplikasi e-wallet Anda";
          "qr_image" := VStr "https://api.qrserver.com/v1/create-qr-code/?size=220x220&data=NASIR-STORE-DEMO" ]};
     "Bank Transfer" :=
       {[ "type" := VStr "bank";
          "bank" := VStr "BCA";
          "account_name" := VStr "NASIR STORE";
          "account_number" := VStr "1234567890" ]};
     "E-Wallet" :=
       {[ "type" := VStr "ewallet";
          "provider" := VStr "OVO/DANA/GoPay";
          "number" := VStr "0812-3456-7890";
          "name" := VStr "NASIR STORE" ]} ]}.

Definition create_order (e : env) (payload : OrderCreate.t) : api dict :=
  found ⇐ find_one "product" [Field "slug" (Equals (QStr (OrderCreate.product_slug payload)))] ;;
  if negb (truthy_doc found)
  then raise (HTTPException 404 "Product not found")
  else
    let product := default ∅ found in
    (* Determine price from package *)
    let base := default (VInt 0) (product !! "price_monthly") in
    match multiplier_table !! OrderCreate.package payload with
    | None => raise (HTTPException 400 "Invalid package")
    | Some multiplier =>
        b ⇐ pure_step (py_float base) ;;
        m ⇐ pure_step (py_float (VInt multiplier)) ;;
        let price := (b * m)%float in
        let order_code := generate_order_code e in
        order ⇐ pure_step
          (OrderSchema
             (py_str (default VNone (product !! "_id")))
             (default VNone (product !! "name"))
             (OrderCreate.package payload)
             price
             (OrderCreate.buyer_name payload)
             (OrderCreate.email payload)
             (OrderCreate.whatsapp payload)
             (OrderCreate.payment_method payload)
             "pending"
             order_code
             (OrderCreate.delivery_channel payload)) ;;
        inserted_id ⇐ create_document "order" (new_oid e 0) (Order.dump order) ;;
        (* Return mock payment instruction (for demo only) *)
        let payment_instructions :=
          default fallback_instruction
                  (instruction_table !! OrderCreate.payment_method payload) in
        ret {[ "order_id" := inserted_id;
               "order_code" := VStr order_code;
               "status" := VStr "pending";
               "amount" := VFloat price;
               "product_name" := default VNone (product !! "name");
               "package" := VStr (OrderCreate.package payload);
               "payment" := VDict payment_instructions ]}
    end.

Definition get_order (order_code : string) : api dict :=
  doc ⇐ find_one "order" [Field "order_code" (Equals (QStr order_code))] ;;
  if negb (truthy_doc doc)
  then raise (HTTPException 404 "Order not found")
  else ret (to_dict (default ∅ doc)).

Definition payment_notify (e : env) (payload : PaymentNotify.t) : api dict :=
  found ⇐ find_one "order" [Field "order_code" (Equals (QStr (PaymentNotify.order_code payload)))] ;;
  if negb (truthy_doc found)
  then raise (HTTPException 404 "Order not found")
  else
    let order := default ∅ found in
    let new_status :=
      if bool_decide (PaymentNotify.status payload = "paid") then "paid" else "failed" in
    if bool_decide (new_status = "paid")
    then
      (* Simulate instant delivery with demo credentials *)
      let delivery_payload : dict :=
        {[ "username" := VStr ("demo_" +:+ str_lower (PaymentNotify.order_code payload)
                               +:+ "@nasirstore.io");
           "password" := VStr "AutoGenerated123!";
           "note" := VStr "Gunakan kredensial ini sesuai ketentuan. Ini demo." ]} in
      id ⇐ pure_step (getitem order "_id") ;;
      update_one "order" [Id id]
        {[ "status" := VStr "delivered";
           "delivered_payload" := VDict delivery_payload;
           "updated_at" := VDate (utcnow e) ]} ;;;
      ret {[ "updated" := VBool true;
             "status" := VStr "delivered";
             "delivered_payload" := VDict delivery_payload ]}
    else
      id ⇐ pure_step (getitem order "_id") ;;
      update_one "order" [Id id]
        {[ "status" := VStr new_status;
           "updated_at" := VDate (utcnow e) ]} ;;;
      ret {[ "updated" := VBool true; "status" := VStr new_status ]}.

(** ** Testimonials and contact *)

Definition create_testimonial (e : env) (body : Testimonial.t) : api dict :=
  inserted_id ⇐ create_document "testimonial" (new_oid e 0) (Testimonial.dump body) ;;
  ret {[ "inserted_id" := inserted_id ]}.

Definition create_contact (e : env) (body : ContactMessage.t) : api dict :=
  inserted_id ⇐ create_document "contactmessage" (new_oid e 0) (ContactMessage.dump body) ;;
  ret {[ "inserted_id" := inserted_id ]}.

End Endpoints.

(** ** Vocabulary of the statements *)

(** A field that holds no array: what the schemas give every field the
    endpoints filter on. *)
Definition scalar_at (k : string) (d : document) : bool :=
  match fields d !! k with
  | Some (VList _) => false
  | _ => true
  end.

(** Every document of the list holds scalars at the keys [ks]. *)
Definition scalars (ks : list string) (l : list document) : bool :=
  forallb (λ d, forallb (λ k, scalar_at k d) ks) l.

Definition value_of (q : qvalue) : value :=
  match q with
  | QBool b => VBool b
  | QStr s => VStr s
  end.

(** A product document that [get_product] may return for [slug]. *)
Definition active_with_slug (slug : string) (d : document) : Prop :=
  fields d !! "slug" = Some (VStr slug)
  ∧ fields d !! "is_active" = Some (VBool true).

(** The filter [list_products] builds for its parameters. *)
Definition products_filter (q category : option string) (featured : option bool) : query :=
  [Field "is_active" (Equals (QBool true))]
  ++ (if truthy_str category
      then [Field "category" (Equals (QStr (default "" category)))] else [])
  ++ match featured with
     | Some b => [Field "is_featured" (Equals (QBool b))]
     | None => []
     end
  ++ (if truthy_str q
      then [Or [("name", RegexI (default "" q));
                ("description", RegexI (default "" q));
                ("short_description", RegexI (default "" q))]]
      else []).

(** The case-insensitive pattern [p] is found in one of the searched fields
    of the returned document [r]. *)
Definition pattern_found `{Platform} (p : string) (r : dict) : Prop :=
  ∃ re k s, regex_i p = Some re
            ∧ k ∈ ["name"; "description"; "short_description"]
            ∧ r !! k = Some (VStr s)
            ∧ re s = true.

(** The price table as the specification words it: package and factor. *)
Definition package_factors : list (string * float) :=
  [("1 Month", 1%float); ("3 Months", 3%float); ("6 Months", 6%float);
   ("12 Months", 12%float); ("Lifetime", 20%float)].

(** The filter [create_order] looks the product up with. *)
Definition by_slug (slug : string) : query := [Field "slug" (Equals (QStr slug))].

(** The filter [get_order] and [payment_notify] look the order up with. *)
Definition by_order_code (code : string) : query :=
  [Field "order_code" (Equals (QStr code))].

(** A product document without the two fields the claim says are ignored. *)
Definition forget_unused (d : document) : document :=
  {| oid := oid d;
     fields := delete "price_lifetime" (delete "durations" (fields d)) |}.

(** The parts of a request that [OrderSchema] checks. *)
Definition accepted `{Platform} (payload : OrderCreate.t) : Prop :=
  is_Some (validate_email (OrderCreate.email payload))
  ∧ OrderCreate.payment_method payload ∈ Order.payment_methods
  ∧ OrderCreate.delivery_channel payload ∈ Order.delivery_channels.

(** The product has a string name and a monthly price that [float] turns
    into [b]. *)
Definition priced `{Platform} (d : document) (b : float) : Prop :=
  (∃ n, fields d !! "name" = Some (VStr n))
  ∧ py_float (default (VInt 0) (fields d !! "price_monthly")) = Return b.

(** The response of a successful [create_order]. *)
Definition order_response `{Platform} (e : env) (payload : OrderCreate.t)
    (d : document) (price : float) : dict :=
  {[ "order_id" := VStr (py_str (VOid (new_oid e 0)));
     "order_code" := VStr (generate_order_code e);
     "status" := VStr "pending";
     "amount" := VFloat price;
     "product_name" := default VNone (fields d !! "name");
     "package" := VStr (OrderCreate.package payload);
     "payment" := VDict (default fallback_instruction
                           (instruction_table !! OrderCreate.payment_method payload)) ]}.

(** The payment instructions for a payment method: the table entry, or
    the fallback. *)
Definition instructions_for `{Platform} (method : string) : dict :=
  default fallback_instruction (instruction_table !! method).

(** The demo credentials delivered for an order code. *)
Definition credentials `{Platform} (code : string) : dict :=
  {[ "username" := VStr ("demo_" +:+ str_lower code +:+ "@nasirstore.io");
     "password" := VStr "AutoGenerated123!";
     "note" := VStr "Gunakan kredensial ini sesuai ketentuan. Ini demo." ]}.

(** The status [payment_notify] stores for a notified status. *)
Definition stored_status (notified : string) : string :=
  if bool_decide (notified = "paid") then "delivered" else "failed".

(** The [$set] document of [payment_notify], as the store keeps it: the
    clock to the millisecond. *)
Definition notify_set `{Platform} (e : env) (payload : PaymentNotify.t) : dict :=
  if bool_decide (PaymentNotify.status payload = "paid")
  then {[ "status" := VStr "delivered";
          "delivered_payload" := VDict (credentials (PaymentNotify.order_code payload));
          "updated_at" := VDate (to_millis (utcnow e)) ]}
  else {[ "status" := VStr "failed";
          "updated_at" := VDate (to_millis (utcnow e)) ]}.

(** The response of [payment_notify] for an order it found. *)
Definition notify_response `{Platform} (payload : PaymentNotify.t) : dict :=
  if bool_decide (PaymentNotify.status payload = "paid")
  then {[ "updated" := VBool true;
          "status" := VStr "delivered";
          "delivered_payload" := VDict (credentials (PaymentNotify.order_code payload)) ]}
  else {[ "updated" := VBool true; "status" := VStr "failed" ]}.

(** The documents a successful [seed_products] stores: the samples in
    order, the [i]-th under the [i]-th minted identifier (counted from [k]). *)
Definition sample_docs `{Platform} (e : env) (k : nat) (ps : list Product.t) : list document :=
  imap (λ i p, {| oid := new_oid e (k + i); fields := Product.dump p |}) ps.

Definition already_seeded : dict :=
  {[ "seeded" := VBool false; "message" := VStr "Products already exist" ]}.

(** ** The API as a transition system *)

(** The requests of the endpoints that work on the collections.  The
    remaining routes ([/], [/test], [GET /api/testimonials], [/schema]) only
    read. *)
Inductive request :=
| ListProducts (q category : option string) (featured : option bool) (limit : option Z)
| GetProduct (slug : string)
| SeedProducts
| CreateOrder (payload : OrderCreate.t)
| GetOrder (order_code : string)
| Notify (payload : PaymentNotify.t)
| CreateTestimonial (body : Testimonial.t)
| CreateContact (body : ContactMessage.t).

(** Serve one request; only the store after it matters below. *)
Definition serve `{Platform} (e : env) (r : request) (db : database) : database :=
  match r with
  | ListProducts q category featured limit =>
      (list_products q category featured limit db).2
  | GetProduct slug => (get_product slug db).2
  | SeedProducts => (seed_products e db).2
  | CreateOrder payload => (create_order e payload db).2
  | GetOrder order_code => (get_order order_code db).2
  | Notify payload => (payment_notify e payload db).2
  | CreateTestimonial body => (create_testimonial e body db).2
  | CreateContact body => (create_contact e body db).2
  end.

(** Serve a sequence of requests, each with its own clock and identifiers. *)
Definition run `{Platform} (trace : list (env * request)) (db : database) : database :=
  foldl (λ db er, serve er.1 er.2 db) db trace.

(** The statuses the API writes. *)
Definition written_statuses : list string := ["pending"; "delivered"; "failed"].

Definition status_written (d : document) : Prop :=
  ∃ s, fields d !! "status" = Some (VStr s) ∧ s ∈ written_statuses.

(** ** A concrete platform

    An ASCII-only instance of the library interface, for evaluating the
    endpoints on concrete requests: identifiers print in decimal, [lower]
    folds A-Z, an address is accepted when it has an "@", and a pattern is
    searched as a literal substring. *)

Definition ascii_lower (a : Ascii.ascii) : Ascii.ascii :=
  let n := Ascii.nat_of_ascii a in
  if bool_decide (65 ≤ n ≤ 90) then Ascii.ascii_of_nat (n + 32) else a.

Fixpoint lower (s : string) : string :=
  match s with
  | EmptyString => EmptyString
  | String a s' => String (ascii_lower a) (lower s')
  end.

Fixpoint contains (needle hay : string) : bool :=
  String.prefix needle hay
  || match hay with
     | EmptyString => false
     | String _ hay' => contains needle hay'
     end.

Definition show (v : value) : string :=
  match v with
  | VStr s => s
  | VOid o => NilEmpty.string_of_uint (N.to_uint o)
  | VInt z => NilEmpty.string_of_int (Z.to_int z)
  | VBool true => "True"
  | VBool false => "False"
  | _ => "None"
  end.

Definition ascii_platform : Platform := {|
  py_str := show;
  str_lower := lower;
  float_of_str := λ _, None;
  validate_email := λ s, if contains "@" s then Some s else None;
  regex_i := λ p, Some (λ s, contains (lower p) (lower s))
|}.

Module Demo.
#[local] Existing Instance ascii_platform.

Definition e0 : env :=
  {| utcnow := {| year := 2024; month := 5; day := 7;
                  hour := 9; minute := 3; second := 41;
                  microsecond := 250999%N |};
     new_oid := λ k, N.of_nat (100 + k) |}.

(** A sample as a collection holds it once imported with its logo address
    as a string. *)
Definition stocked (i : nat) (p : Product.t) : document :=
  {| oid := N.of_nat (100 + i);
     fields := <["logo_url" := of_option VStr (Product.logo_url p)]>
                 (Product.dump p) |}.

(** A store with the five samples on sale. *)
Definition seeded : database := {[ "product" := imap stocked samples ]}.

(** The third of them. *)
Definition canva : document :=
  default {| oid := 0%N; fields := ∅ |} (coll seeded "product" !! 2).

(** A product taken off the shelf. *)
Definition retired : document :=
  {| oid := 7%N;
     fields := {[ "name" := VStr "Old Plan";
                  "slug" := VStr "old-plan";
                  "price_monthly" := VFloat 10000%float;
                  "is_active" := VBool false ]} |}.

(** The same slug, on sale again under a new document. *)
Definition relaunched : document :=
  {| oid := 8%N;
     fields := {[ "name" := VStr "Old Plan";
                  "slug" := VStr "old-plan";
                  "price_monthly" := VFloat 12000%float;
                  "is_active" := VBool true ]} |}.

Definition shelf : database := {[ "product" := [retired] ]}.
Definition shelf2 : database := {[ "product" := [retired; relaunched] ]}.

Definition buy_old (method : string) : OrderCreate.t :=
  {| OrderCreate.product_slug := "old-plan";
     OrderCreate.package := "1 Month";
     OrderCreate.buyer_name := "Ana";
     OrderCreate.email := "ana@example.org";
     OrderCreate.whatsapp := "0811";
     OrderCreate.payment_method := method;
     OrderCreate.delivery_channel := "email" |}.

Definition buy : OrderCreate.t :=
  {| OrderCreate.product_slug := "canva-pro";
     OrderCreate.package := "3 Months";
     OrderCreate.buyer_name := "Ana";
     OrderCreate.email := "ana@example.org";
     OrderCreate.whatsapp := "0811";
     OrderCreate.payment_method := "QRIS";
     OrderCreate.delivery_channel := "email" |}.

(** Another buyer, product and package, a later clock; the same method. *)
Definition e1 : env :=
  {| utcnow := {| year := 2024; month := 5; day := 7;
                  hour := 9; minute := 4; second := 2;
                  microsecond := 7%N |};
     new_oid := λ k, N.of_nat (200 + k) |}.

Definition buy2 : OrderCreate.t :=
  {| OrderCreate.product_slug := "netflix-premium";
     OrderCreate.package := "12 Months";
     OrderCreate.buyer_name := "Budi";
     OrderCreate.email := "budi@example.org";
     OrderCreate.whatsapp := "0822";
     OrderCreate.payment_method := "QRIS";
     OrderCreate.delivery_channel := "both" |}.

(** The store after [buy], and the order it holds. *)
Definition ordered : database := (create_order e0 buy seeded).2.

Definition placed : document :=
  default {| oid := 0%N; fields := ∅ |} (coll ordered "order" !! 0).

Definition paid : PaymentNotify.t :=
  {| PaymentNotify.order_code := "NS-20240507090341";
     PaymentNotify.status := "paid" |}.

(** The response of a run, [∅] if it raised. *)
Definition receipt (r : outcome dict * database) : dict :=
  match r.1 with
  | Return resp => resp
  | Raise _ => ∅
  end.

Definition praise : Testimonial.t :=
  {| Testimonial.name := "Ana";
     Testimonial.rating := 5%Z;
     Testimonial.comment := "Cepat dan aman";
     Testimonial.product_slug := Some "canva-pro" |}.

Definition question : ContactMessage.t :=
  {| ContactMessage.name := "Budi";
     ContactMessage.email := "budi@example.org";
     ContactMessage.whatsapp := None;
     ContactMessage.message := "Apakah ada paket keluarga?" |}.
End Demo.

(** ** Vocabulary of the further properties *)

(** Every collection indexes its documents by distinct identifiers. *)
Definition ids_unique (db : database) : Prop :=
  ∀ name, NoDup (oid <$> coll db name).

(** [db'] comes from [db] by writing to collection [c] only, keeping the
    identifiers stored there in place, possibly with new ones after them,
    and keeping them distinct if they were. *)
Definition extends_in (c : string) (db db' : database) : Prop :=
  (∀ c', c' ≠ c → db' !! c' = db !! c')
  ∧ (∃ l, oid <$> coll db' c = (oid <$> coll db c) ++ l)
  ∧ (NoDup (oid <$> coll db c) → NoDup (oid <$> coll db' c)).

(** The collection a request may write to, if any. *)
Definition written_collection (r : request) : option string :=
  match r with
  | SeedProducts => Some "product"
  | CreateOrder _ | Notify _ => Some "order"
  | CreateTestimonial _ => Some "testimonial"
  | CreateContact _ => Some "contactmessage"
  | ListProducts _ _ _ _ | GetProduct _ | GetOrder _ => None
  end.

(** Two timestamps of the same second. *)
Definition same_second (t1 t2 : datetime) : Prop :=
  year t1 = year t2 ∧ month t1 = month t2 ∧ day t1 = day t2
  ∧ hour t1 = hour t2 ∧ minute t1 = minute t2 ∧ second t1 = second t2.

(** What [datetime] guarantees of a timestamp, with the four-digit years the
    clock can show. *)
Definition is_datetime (t : datetime) : Prop :=
  (1000 ≤ Z.of_nat (year t) ≤ 9999)%Z ∧ 1 ≤ month t ≤ 12 ∧ 1 ≤ day t ≤ 31
  ∧ hour t ≤ 23 ∧ minute t ≤ 59 ∧ second t ≤ 59
  ∧ (microsecond t ≤ 999999)%N.

(** Read a decimal numeral back; leading zeros do not count. *)
Definition read_decimal (s : string) : option nat :=
  Nat.of_uint <$> NilEmpty.uint_of_string s.

(** An order document as [create_order] writes it and [payment_notify]
    keeps it: a code of the generator, a price that is not negative, a
    package, a payment method and a status of the lists, and, once
    delivered, the credentials of its own code. *)
Definition order_kept `{Platform} (d : document) : Prop :=
  (∃ e, fields d !! "order_code" = Some (VStr (generate_order_code e)))
  ∧ (∃ p, fields d !! "price" = Some (VFloat p) ∧ (0 <=? p)%float = true)
  ∧ (∃ k, fields d !! "package" = Some (VStr k) ∧ k ∈ packages)
  ∧ (∃ m, fields d !! "payment_method" = Some (VStr m)
          ∧ m ∈ Order.payment_methods)
  ∧ status_written d
  ∧ (fields d !! "status" = Some (VStr "delivered") →
     ∃ code, fields d !! "order_code" = Some (VStr code)
             ∧ fields d !! "delivered_payload" = Some (VDict (credentials code))).

(** The store invariant of the API. *)
Definition store_kept `{Platform} (db : database) : Prop :=
  ids_unique db ∧ ∀ d, d ∈ coll db "order" → order_kept d.

(** The order [o2] at position [j] is shadowed for [code]: the order
    identifiers are distinct and an order stored before it carries the
    code, so that [find_one] by the code stops before [j]. *)
Definition shadowed `{Platform} (code : string) (j : nat) (o2 : document)
    (db : database) : Prop :=
  NoDup (oid <$> coll db "order")
  ∧ coll db "order" !! j = Some o2
  ∧ ∃ k o, k < j ∧ coll db "order" !! k = Some o
           ∧ matches (by_order_code code) o = true.

(** A notification for an order code. *)
Definition notification (code status : string) : PaymentNotify.t :=
  {| PaymentNotify.order_code := code; PaymentNotify.status := status |}.

(** The conditions under which [create_order] creates the order of [d]. *)
Definition creatable `{Platform} (e : env) (payload : OrderCreate.t)
    (db : database) (d : document) (b f : float) : Prop :=
  List.find (matches (by_slug (OrderCreate.product_slug payload)))
            (coll db "product") = Some d
  ∧ (OrderCreate.package payload, f) ∈ package_factors
  ∧ priced d b
  ∧ (0 <=? b * f)%float = true
  ∧ accepted payload
  ∧ new_oid e 0 ∉ (oid <$> coll db "order").

Module Tour.
#[local] Existing Instance ascii_platform.
Import Demo.

(** A second buyer in the very second of [buy], some microseconds later. *)
Definition e0' : env :=
  {| utcnow := {| year := 2024; month := 5; day := 7;
                  hour := 9; minute := 3; second := 41;
                  microsecond := 251400%N |};
     new_oid := λ k, N.of_nat (300 + k) |}.

(** The store holding both orders. *)
Definition crowded : database := (create_order e0' buy2 ordered).2.

Definition code0 : string := generate_order_code e0.

(** The store after the order of [buy] is paid. *)
Definition delivered : database := (payment_notify e1 paid ordered).2.
End Tour.

(** * Properties *)

#[local] Set Warnings "-clear-no-such-hyp".

(** ** The store *)

Lemma coll_insert_eq (db : database) name l : coll (<[name := l]> db) name = l.
Proof. unfold coll. by rewrite lookup_insert_eq. Qed.

Lemma coll_insert_ne (db : database) name name' l :
  name ≠ name' → coll (<[name := l]> db) name' = coll db name'.
Proof. intros Hne. unfold coll. by rewrite lookup_insert_ne. Qed.

Lemma as_dict_id d : as_dict d !! "_id" = Some (VOid (oid d)).
Proof. unfold as_dict. by rewrite lookup_insert_eq. Qed.

Lemma as_dict_field d k : k ≠ "_id" → as_dict d !! k = fields d !! k.
Proof. intros Hne. unfold as_dict. by rewrite lookup_insert_ne. Qed.

Lemma as_dict_nonempty d : as_dict d ≠ ∅.
Proof. unfold as_dict. apply insert_non_empty. Qed.

Lemma eq_scalar_true q v : eq_scalar q v = true ↔ v = value_of q.
Proof.
  destruct q, v; simpl; rewrite ?bool_decide_eq_true; split; try congruence;
    try discriminate.
Qed.

Lemma eq_match_scalar q k d :
  scalar_at k d = true →
  eq_match q (fields d !! k) = true ↔ fields d !! k = Some (value_of q).
Proof.
  unfold scalar_at, eq_match. destruct (fields d !! k) as [v|]; [|done].
  intros Hs. destruct v; try discriminate;
    rewrite eq_scalar_true; split; congruence.
Qed.

Lemma scalars_elem ks l d k :
  scalars ks l = true → d ∈ l → k ∈ ks → scalar_at k d = true.
Proof.
  unfold scalars. rewrite forallb_forall. intros Hall Hd Hk.
  apply list_elem_of_In in Hd, Hk.
  specialize (Hall d Hd). rewrite forallb_forall in Hall. by apply Hall.
Qed.

Lemma find_Some_first {A} (f : A → bool) l x :
  List.find f l = Some x →
  ∃ i, l !! i = Some x ∧ f x = true ∧
       ∀ j y, j < i → l !! j = Some y → f y = false.
Proof.
  induction l as [|a l IH]; simpl; [done|].
  destruct (f a) eqn:Hfa.
  - intros [= ->]. exists 0. repeat split; [done|]. intros j y Hj. lia.
  - intros Hfind. destruct (IH Hfind) as (i & Hi & Hfx & Hmin).
    exists (S i). repeat split; [done..|].
    intros [|j] y Hj Hy; simpl in Hy; [congruence|]. apply (Hmin j); [lia|done].
Qed.

Lemma find_None_all {A} (f : A → bool) l :
  List.find f l = None ↔ ∀ x, x ∈ l → f x = false.
Proof.
  induction l as [|a l IH]; simpl.
  - split; [|done]. intros _ x Hx. by apply elem_of_nil in Hx.
  - destruct (f a) eqn:Hfa.
    + split; [done|]. intros Hall. specialize (Hall a). rewrite Hfa in Hall.
      discriminate Hall. left.
    + rewrite IH. split.
      * intros Hall x Hx. apply elem_of_cons in Hx as [->|Hx]; auto.
      * intros Hall x Hx. apply Hall. by right.
Qed.

Section Facts.
Context `{Platform}.

Lemma to_dict_as_dict d :
  to_dict (as_dict d) = <["_id" := VStr (py_str (VOid (oid d)))]> (fields d).
Proof.
  unfold to_dict. rewrite bool_decide_eq_false_2 by apply as_dict_nonempty.
  rewrite as_dict_id. simpl. unfold as_dict. by rewrite insert_insert_eq.
Qed.

Lemma to_dict_as_dict_field d k :
  k ≠ "_id" → to_dict (as_dict d) !! k = fields d !! k.
Proof. intros Hne. rewrite to_dict_as_dict. by rewrite lookup_insert_ne. Qed.

Lemma truthy_as_dict d : truthy_doc (Some (as_dict d)) = true.
Proof.
  simpl. rewrite bool_decide_eq_false_2 by apply as_dict_nonempty. done.
Qed.

(** What [find_one] returns is decided by [List.find] on the collection. *)
Lemma find_one_equals name k q db :
  find_one name [Field k (Equals q)] db
  = (Return (as_dict <$> List.find (matches [Field k (Equals q)]) (coll db name)), db).
Proof. reflexivity. Qed.

Lemma matches_field_equals k q d :
  matches [Field k (Equals q)] d = eq_match q (fields d !! k).
Proof. unfold matches. simpl. by rewrite andb_true_r. Qed.

End Facts.


(** ** Products *)

Section ProductClaims.
Context `{Platform}.

Lemma matches_slug_active slug d :
  scalar_at "slug" d = true → scalar_at "is_active" d = true →
  matches [Field "slug" (Equals (QStr slug));
           Field "is_active" (Equals (QBool true))] d = true
  ↔ active_with_slug slug d.
Proof.
  intros Hs Ha. unfold matches, active_with_slug. simpl.
  rewrite andb_true_r, andb_true_iff.
  by rewrite (eq_match_scalar _ _ _ Hs), (eq_match_scalar _ _ _ Ha).
Qed.

Lemma get_product_unfold slug db :
  get_product slug db
  = match List.find (matches [Field "slug" (Equals (QStr slug));
                              Field "is_active" (Equals (QBool true))])
                    (coll db "product") with
    | Some d => (Return (to_dict (as_dict d)), db)
    | None => (Raise (HTTPException 404 "Product not found"), db)
    end.
Proof.
  unfold get_product, bind, find_one. simpl.
  destruct (List.find _ _) as [d|]; simpl; [|done].
  by rewrite bool_decide_eq_false_2 by apply as_dict_nonempty.
Qed.

(** C5: in a store whose products keep scalars in [slug] and [is_active],
    [get_product] returns a stored product with that slug and
    [is_active = true], its [_id] replaced by its string, exactly when such
    a product exists; otherwise it raises 404 "Product not found", as it
    does when the only products with the slug are inactive; the store is
    never changed. *)
Theorem get_product_spec (slug : string) (db : database) :
  scalars ["slug"; "is_active"] (coll db "product") = true →
  (get_product slug db).2 = db
  ∧ ((∃ d, d ∈ coll db "product" ∧ active_with_slug slug d)
     ↔ ∃ r, (get_product slug db).1 = Return r)
  ∧ (∀ r, (get_product slug db).1 = Return r →
       ∃ d, d ∈ coll db "product" ∧ active_with_slug slug d
            ∧ r = <["_id" := VStr (py_str (VOid (oid d)))]> (fields d))
  ∧ ((¬ ∃ d, d ∈ coll db "product" ∧ active_with_slug slug d) →
       (get_product slug db).1 = Raise (HTTPException 404 "Product not found"))
  ∧ (∀ d, d ∈ coll db "product" →
       fields d !! "slug" = Some (VStr slug) →
       (∀ d', d' ∈ coll db "product" →
              fields d' !! "slug" = Some (VStr slug) →
              fields d' !! "is_active" = Some (VBool false)) →
       (get_product slug db).1 = Raise (HTTPException 404 "Product not found")).
Proof.
  intros Hsc. rewrite get_product_unfold.
  assert (Hm : ∀ d, d ∈ coll db "product" →
    matches [Field "slug" (Equals (QStr slug));
             Field "is_active" (Equals (QBool true))] d = true
    ↔ active_with_slug slug d).
  { intros d Hd. apply matches_slug_active.
    - apply (scalars_elem _ _ _ _ Hsc Hd). set_solver.
    - apply (scalars_elem _ _ _ _ Hsc Hd). set_solver. }
  destruct (List.find _ _) as [d|] eqn:Hfind; simpl.
  - destruct (find_Some_first _ _ _ Hfind) as (i & Hi & Hmd & _).
    assert (Hd : d ∈ coll db "product") by (apply list_elem_of_lookup; eauto).
    apply Hm in Hmd; [|done].
    split; [done|]. split; [split; eauto|]. split.
    + intros r [= <-]. exists d. by rewrite to_dict_as_dict.
    + split.
      * intros Hno. exfalso. apply Hno. eauto.
      * intros d0 Hd0 Hslug0 Hall. exfalso.
        destruct Hmd as [Hslug Hact].
        specialize (Hall d Hd Hslug). congruence.
  - rewrite find_None_all in Hfind.
    split; [done|]. split.
    + split.
      * intros (d & Hd & Hw). apply Hm in Hw; [|done].
        rewrite (Hfind d Hd) in Hw. discriminate.
      * intros [r Hr]. discriminate.
    + split; [intros r Hr; discriminate|]. split; done.
Qed.

End ProductClaims.

Section ListClaims.
Context `{Platform}.

Lemma truthy_str_Some s : truthy_str (Some s) = true ↔ s ≠ "".
Proof. destruct s; simpl; split; congruence. Qed.

Lemma list_products_unfold q category featured limit db :
  list_products q category featured limit db
  = let n := default 100%Z limit in
    if negb ((1 <=? n)%Z && (n <=? 200)%Z)
    then (Raise RequestValidationError, db)
    else if query_ok (products_filter q category featured)
    then (Return (to_dict <$> take (Z.to_nat n)
                    (as_dict <$> List.filter (matches (products_filter q category featured))
                                   (coll db "product"))), db)
    else (Raise OperationFailure, db).
Proof.
  unfold list_products, products_filter. simpl.
  destruct (negb _); [done|].
  unfold bind, find.
  destruct (truthy_str category), featured, (truthy_str q); simpl;
    try done; by destruct (bool_decide _).
Qed.

Lemma regex_match_scalar re k d :
  scalar_at k d = true → regex_match re (fields d !! k) = true →
  ∃ s, fields d !! k = Some (VStr s) ∧ re s = true.
Proof.
  unfold scalar_at, regex_match. destruct (fields d !! k) as [v|]; [|done].
  destruct v; try discriminate. simpl. eauto.
Qed.

Lemma clause_of_matches fq d c :
  matches fq d = true → c ∈ fq → clause_holds d c = true.
Proof.
  unfold matches. rewrite forallb_forall. intros Hall Hc.
  apply Hall. by apply list_elem_of_In.
Qed.

(** C6: in a store whose products keep scalars in the filtered fields,
    every document [list_products] returns is a stored product with
    [is_active = true], with the given (non-empty) category, with the given
    [is_featured], and with the given (non-empty) pattern found
    case-insensitively in [name], [description] or [short_description];
    at most [limit] documents come back; [limit] defaults to 100 and is
    refused outside 1..200; a result is returned whenever the limit is in
    range and the server accepts the pattern. *)
Theorem list_products_spec (q category : option string) (featured : option bool)
    (limit : option Z) (db : database) :
  scalars ["is_active"; "category"; "is_featured";
           "name"; "description"; "short_description"] (coll db "product") = true →
  list_products q category featured None db
    = list_products q category featured (Some 100%Z) db
  ∧ (¬ (1 ≤ default 100 limit ≤ 200)%Z →
       list_products q category featured limit db = (Raise RequestValidationError, db))
  ∧ ((1 ≤ default 100 limit ≤ 200)%Z →
     (truthy_str q = true → is_Some (regex_i (default "" q))) →
       ∃ docs, list_products q category featured limit db = (Return docs, db))
  ∧ (∀ docs db', list_products q category featured limit db = (Return docs, db') →
       db' = db
       ∧ (1 ≤ default 100 limit ≤ 200)%Z
       ∧ (Z.of_nat (length docs) ≤ default 100 limit)%Z
       ∧ ∀ r, r ∈ docs →
           (∃ d, d ∈ coll db "product"
                 ∧ r = <["_id" := VStr (py_str (VOid (oid d)))]> (fields d))
           ∧ r !! "is_active" = Some (VBool true)
           ∧ (∀ c, category = Some c → c ≠ "" → r !! "category" = Some (VStr c))
           ∧ (∀ b, featured = Some b → r !! "is_featured" = Some (VBool b))
           ∧ (∀ p, q = Some p → p ≠ "" → pattern_found p r)).
Proof.
  intros Hsc. split; [reflexivity|].
  rewrite list_products_unfold. cbv zeta.
  set (n := default 100%Z limit).
  set (fq := products_filter q category featured).
  destruct (negb _) eqn:Hrange.
  { apply negb_true_iff, andb_false_iff in Hrange.
    rewrite !Z.leb_gt in Hrange.
    split; [done|]. split; [lia|]. intros docs db' [=]. }
  apply negb_false_iff, andb_true_iff in Hrange.
  rewrite !Z.leb_le in Hrange.
  split; [lia|]. split.
  { intros _ Hre. assert (Hok : query_ok fq = true).
    { unfold fq, products_filter, query_ok.
      rewrite !forallb_app. simpl.
      destruct (truthy_str category); simpl.
      all: destruct featured; simpl.
      all: destruct (truthy_str q); simpl; try done.
      all: specialize (Hre eq_refl).
      all: by rewrite (bool_decide_eq_true_2 _ Hre). }
    rewrite Hok. eauto. }
  intros docs db'. destruct (query_ok fq); [|discriminate].
  intros [= <- <-]. split; [done|]. split; [done|]. split.
  { rewrite length_fmap, length_take. lia. }
  intros r Hr. apply list_elem_of_fmap in Hr as (r0 & -> & Hr0).
  apply elem_of_take in Hr0 as (i & Hr0 & _).
  apply list_elem_of_lookup_2, list_elem_of_fmap in Hr0 as (d & -> & Hd).
  apply list_elem_of_In, filter_In in Hd as [Hd Hm].
  apply list_elem_of_In in Hd.
  assert (Hs : ∀ k, k ∈ ["is_active"; "category"; "is_featured";
                         "name"; "description"; "short_description"] →
                    scalar_at k d = true).
  { intros k Hk. by apply (scalars_elem _ _ _ _ Hsc Hd). }
  split; [exists d; by rewrite to_dict_as_dict|].
  split.
  { rewrite to_dict_as_dict_field by done.
    assert (Hc := clause_of_matches fq d (Field "is_active" (Equals (QBool true))) Hm).
    simpl in Hc. apply eq_match_scalar in Hc; [done|apply Hs; set_solver|].
    unfold fq, products_filter. set_solver. }
  split.
  { intros c -> Hc. rewrite to_dict_as_dict_field by done.
    apply truthy_str_Some in Hc.
    assert (Hcl := clause_of_matches fq d (Field "category" (Equals (QStr c))) Hm).
    simpl in Hcl. apply eq_match_scalar in Hcl; [done|apply Hs; set_solver|].
    unfold fq, products_filter. rewrite Hc. set_solver. }
  split.
  { intros b ->. rewrite to_dict_as_dict_field by done.
    assert (Hcl := clause_of_matches fq d (Field "is_featured" (Equals (QBool b))) Hm).
    simpl in Hcl. apply eq_match_scalar in Hcl; [done|apply Hs; set_solver|].
    unfold fq, products_filter. set_solver. }
  intros p -> Hp. apply truthy_str_Some in Hp.
  assert (Hin : Or [("name", RegexI p); ("description", RegexI p);
                    ("short_description", RegexI p)] ∈ fq).
  { unfold fq, products_filter. rewrite Hp. set_solver. }
  assert (Hcl := clause_of_matches fq d _ Hm Hin).
  simpl in Hcl. unfold pattern_found.
  destruct (regex_i p) as [re|] eqn:Hre; [|discriminate].
  rewrite orb_false_r, !orb_true_iff in Hcl.
  destruct Hcl as [Hcl|[Hcl|Hcl]].
  - apply regex_match_scalar in Hcl as (s & Hs' & Hres); [|apply Hs; set_solver].
    exists re, "name", s. rewrite to_dict_as_dict_field by done.
    repeat split; [set_solver|done..].
  - apply regex_match_scalar in Hcl as (s & Hs' & Hres); [|apply Hs; set_solver].
    exists re, "description", s. rewrite to_dict_as_dict_field by done.
    repeat split; [set_solver|done..].
  - apply regex_match_scalar in Hcl as (s & Hs' & Hres); [|apply Hs; set_solver].
    exists re, "short_description", s. rewrite to_dict_as_dict_field by done.
    repeat split; [set_solver|done..].
Qed.

End ListClaims.

(** ** Orders *)

Section OrderFacts.
Context `{Platform}.

Lemma multiplier_factor p m :
  multiplier_table !! p = Some m →
  ∃ f, (p, f) ∈ package_factors ∧ py_float (VInt m) = Return f.
Proof.
  unfold multiplier_table. intros Hp.
  repeat (apply lookup_insert_Some in Hp as [[<- <-]|[_ Hp]];
          [eexists; split; [|vm_compute; reflexivity]; set_solver|]).
  apply lookup_singleton_Some in Hp as [<- <-].
  eexists; split; [|vm_compute; reflexivity]; set_solver.
Qed.

Lemma factor_multiplier p f :
  (p, f) ∈ package_factors →
  ∃ m, multiplier_table !! p = Some m ∧ py_float (VInt m) = Return f.
Proof.
  unfold package_factors. intros Hp.
  do 5 (apply elem_of_cons in Hp as [Heq|Hp];
          [apply pair_eq in Heq as [-> ->];
           eexists; split; [vm_compute; reflexivity|];
           vm_compute; reflexivity|]).
  by apply elem_of_nil in Hp.
Qed.

Lemma multiplier_None p :
  multiplier_table !! p = None ↔ p ∉ package_factors.*1.
Proof.
  split.
  - intros Hn Hin. apply list_elem_of_fmap in Hin as ([p' f] & -> & Hin).
    apply factor_multiplier in Hin as (m & Hm & _). simpl in Hn. congruence.
  - intros Hn. destruct (multiplier_table !! p) as [m|] eqn:Hm; [|done].
    apply multiplier_factor in Hm as (f & Hf & _). exfalso. apply Hn.
    apply list_elem_of_fmap. by exists (p, f).
Qed.

(** An order as [OrderSchema] builds it holds nothing BSON refuses or
    rounds. *)
Lemma order_dump_stored order :
  Order.delivered_payload order = None →
  encodable (VDict (Order.dump order)) = true
  ∧ as_stored <$> Order.dump order = Order.dump order.
Proof.
  destruct order as [? ? ? ? ? ? ? ? ? code ? note payload]. simpl. intros ->.
  destruct code, note; split; reflexivity.
Qed.

(** [create_order], one case per exit. *)
Lemma create_order_unfold e payload db :
  create_order e payload db
  = match List.find (matches (by_slug (OrderCreate.product_slug payload)))
                    (coll db "product") with
    | None => (Raise (HTTPException 404 "Product not found"), db)
    | Some d =>
      match multiplier_table !! OrderCreate.package payload with
      | None => (Raise (HTTPException 400 "Invalid package"), db)
      | Some m =>
        match py_float (default (VInt 0) (fields d !! "price_monthly")) with
        | Raise err => (Raise err, db)
        | Return b =>
          match py_float (VInt m) with
          | Raise err => (Raise err, db)
          | Return f =>
            match OrderSchema (py_str (VOid (oid d)))
                    (default VNone (fields d !! "name"))
                    (OrderCreate.package payload) (b * f)%float
                    (OrderCreate.buyer_name payload) (OrderCreate.email payload)
                    (OrderCreate.whatsapp payload)
                    (OrderCreate.payment_method payload)
                    "pending" (generate_order_code e)
                    (OrderCreate.delivery_channel payload) with
            | Raise err => (Raise err, db)
            | Return order =>
              if bool_decide (new_oid e 0 ∈ (oid <$> coll db "order"))
              then (Raise DuplicateKeyError, db)
              else (Return (order_response e payload d (b * f)%float),
                    <["order" := coll db "order"
                        ++ [{| oid := new_oid e 0; fields := Order.dump order |}]]> db)
            end
          end
        end
      end
    end.
Proof.
  unfold create_order, bind. rewrite find_one_equals. fold (by_slug (OrderCreate.product_slug payload)).
  destruct (List.find _ _) as [d|]; [|done].
  cbn [fmap option_fmap option_map]. rewrite truthy_as_dict. cbn [negb default].
  change (id (as_dict d)) with (as_dict d). rewrite as_dict_id. rewrite !(as_dict_field d "price_monthly"), !(as_dict_field d "name") by done.
  destruct (multiplier_table !! _) as [m|]; [|done].
  unfold pure_step.
  destruct (py_float (default (VInt 0) (fields d !! "price_monthly"))) as [b|];
    [|reflexivity].
  destruct (py_float (VInt m)) as [f|]; [|done].
  cbn [default].
  destruct (OrderSchema _ _ _ _ _ _ _ _ _ _ _) as [order|] eqn:Ho; [|done].
  destruct (order_dump_stored order) as [Henc Hst].
  { unfold OrderSchema in Ho.
    repeat match type of Ho with
           | match ?x with _ => _ end = _ => destruct x; try discriminate
           | (if ?x then _ else _) = _ => destruct x; try discriminate
           end. by injection Ho as <-. }
  unfold create_document, bind, insert_one. rewrite Henc, Hst. cbn [negb].
  destruct (bool_decide _); done.
Qed.

Lemma OrderSchema_Return pid pname pkg price bn em wa pm st oc dc order :
  OrderSchema pid pname pkg price bn em wa pm st oc dc = Return order →
  ∃ n em', pname = VStr n ∧ validate_email em = Some em'
    ∧ pkg ∈ packages ∧ (0 <=? price)%float = true
    ∧ pm ∈ Order.payment_methods ∧ st ∈ Order.statuses
    ∧ dc ∈ Order.delivery_channels
    ∧ Order.price order = price ∧ Order.status order = st
    ∧ Order.order_code order = Some oc
    ∧ Order.delivered_payload order = None.
Proof.
  unfold OrderSchema. destruct pname; try discriminate.
  destruct (validate_email em) as [em'|]; [|discriminate].
  destruct (_ && _) eqn:Hchecks; [|discriminate].
  intros [= <-]. rewrite !andb_true_iff, !bool_decide_eq_true in Hchecks.
  destruct Hchecks as ((((? & ?) & ?) & ?) & ?). eauto 15.
Qed.

Lemma OrderSchema_accepts pid n pkg price bn em em' wa pm oc dc :
  validate_email em = Some em' → pkg ∈ packages → (0 <=? price)%float = true →
  pm ∈ Order.payment_methods → dc ∈ Order.delivery_channels →
  ∃ order, OrderSchema pid (VStr n) pkg price bn em wa pm "pending" oc dc = Return order.
Proof.
  intros Hem Hpkg Hprice Hpm Hdc. unfold OrderSchema. rewrite Hem, Hprice.
  rewrite !bool_decide_eq_true_2; [eauto|done|set_solver|done|done].
Qed.

Lemma dump_price order : Order.dump order !! "price" = Some (VFloat (Order.price order)).
Proof. reflexivity. Qed.

Lemma dump_status order : Order.dump order !! "status" = Some (VStr (Order.status order)).
Proof. reflexivity. Qed.

Lemma response_amount e payload d price :
  order_response e payload d price !! "amount" = Some (VFloat price).
Proof. reflexivity. Qed.

Lemma response_payment e payload d price :
  order_response e payload d price !! "payment"
  = Some (VDict (default fallback_instruction
                   (instruction_table !! OrderCreate.payment_method payload))).
Proof. reflexivity. Qed.

Lemma response_status e payload d price :
  order_response e payload d price !! "status" = Some (VStr "pending").
Proof. reflexivity. Qed.

(** What a successful [create_order] did. *)
Lemma create_order_Return e payload db resp db' :
  create_order e payload db = (Return resp, db') →
  ∃ d b f order,
    List.find (matches (by_slug (OrderCreate.product_slug payload)))
              (coll db "product") = Some d
    ∧ (OrderCreate.package payload, f) ∈ package_factors
    ∧ py_float (default (VInt 0) (fields d !! "price_monthly")) = Return b
    ∧ Order.price order = (b * f)%float
    ∧ Order.status order = "pending"
    ∧ OrderCreate.payment_method payload ∈ Order.payment_methods
    ∧ (new_oid e 0 ∉ (oid <$> coll db "order"))
    ∧ resp = order_response e payload d (b * f)%float
    ∧ db' = <["order" := coll db "order"
                ++ [{| oid := new_oid e 0; fields := Order.dump order |}]]> db.
Proof.
  rewrite create_order_unfold.
  destruct (List.find _ _) as [d|]; [|discriminate].
  destruct (multiplier_table !! _) as [m|] eqn:Hm; [|discriminate].
  destruct (py_float (default _ _)) as [b|] eqn:Hb; [|discriminate].
  apply multiplier_factor in Hm as (f & Hf & ->).
  destruct (OrderSchema _ _ _ _ _ _ _ _ _ _ _) as [order|] eqn:Ho; [|discriminate].
  case_bool_decide as Hfresh; [discriminate|].
  intros [= <- <-].
  apply OrderSchema_Return in Ho
    as (n & em' & _ & _ & _ & _ & Hpm & _ & _ & Hprice & Hst & _).
  exists d, b, f, order. eauto 10.
Qed.

(** A request that passes validation creates the order. *)
Lemma create_order_succeeds e payload db d b f :
  List.find (matches (by_slug (OrderCreate.product_slug payload)))
            (coll db "product") = Some d →
  (OrderCreate.package payload, f) ∈ package_factors →
  priced d b → (0 <=? b * f)%float = true →
  accepted payload →
  new_oid e 0 ∉ (oid <$> coll db "order") →
  ∃ order,
    Order.price order = (b * f)%float ∧ Order.status order = "pending"
    ∧ create_order e payload db
      = (Return (order_response e payload d (b * f)%float),
         <["order" := coll db "order"
             ++ [{| oid := new_oid e 0; fields := Order.dump order |}]]> db).
Proof.
  intros Hfind Hf [[n Hn] Hb] Hprice ([em' Hem] & Hpm & Hdc) Hfresh.
  rewrite create_order_unfold, Hfind.
  assert (Hpkg : OrderCreate.package payload ∈ packages).
  { apply (list_elem_of_fmap_2 fst) in Hf. exact Hf. }
  apply factor_multiplier in Hf as (m & -> & ->). rewrite Hb, Hn.
  change (default VNone (Some (VStr n))) with (VStr n).
  destruct (OrderSchema_accepts (py_str (VOid (oid d))) n
              (OrderCreate.package payload) (b * f)%float
              (OrderCreate.buyer_name payload) (OrderCreate.email payload) em'
              (OrderCreate.whatsapp payload) (OrderCreate.payment_method payload)
              (generate_order_code e) (OrderCreate.delivery_channel payload))
    as [order Horder]; [done..|].
  rewrite Horder. rewrite bool_decide_eq_false_2 by done.
  apply OrderSchema_Return in Horder
    as (_ & _ & _ & _ & _ & _ & _ & _ & _ & Hp & Hst & _).
  eauto.
Qed.

Lemma forget_fields d k :
  k ≠ "price_lifetime" → k ≠ "durations" →
  fields (forget_unused d) !! k = fields d !! k.
Proof.
  intros H1 H2. unfold forget_unused. simpl.
  by rewrite !lookup_delete_ne.
Qed.

Lemma matches_forget slug d :
  matches (by_slug slug) (forget_unused d) = matches (by_slug slug) d.
Proof.
  unfold by_slug. by rewrite !matches_field_equals, forget_fields.
Qed.

Lemma find_forget slug l1 l2 :
  forget_unused <$> l1 = forget_unused <$> l2 →
  forget_unused <$> List.find (matches (by_slug slug)) l1
  = forget_unused <$> List.find (matches (by_slug slug)) l2.
Proof.
  revert l2. induction l1 as [|d1 l1 IH]; intros [|d2 l2] Heq;
    try discriminate; [done|].
  rewrite !fmap_cons in Heq. apply (inj2 cons) in Heq as [Hd Hl].
  cbn [List.find].
  rewrite <- (matches_forget slug d1), <- (matches_forget slug d2), Hd.
  destruct (matches _ _); [by simpl; f_equal|by apply IH].
Qed.

(** [create_order] never reads [price_lifetime] or [durations]: two stores
    whose products differ in those fields only get the same outcome and the
    same order collection. *)
Lemma create_order_ignores e payload db1 db2 :
  forget_unused <$> coll db1 "product" = forget_unused <$> coll db2 "product" →
  coll db1 "order" = coll db2 "order" →
  (create_order e payload db1).1 = (create_order e payload db2).1
  ∧ coll (create_order e payload db1).2 "order"
    = coll (create_order e payload db2).2 "order".
Proof.
  intros Hprod Hord. rewrite !create_order_unfold.
  apply (find_forget (OrderCreate.product_slug payload)) in Hprod.
  destruct (List.find _ (coll db1 _)) as [d1|], (List.find _ (coll db2 _)) as [d2|];
    try discriminate; [|done].
  apply (inj Some) in Hprod as Hd.
  assert (Hoid : oid d1 = oid d2) by (by apply (f_equal oid) in Hd).
  assert (Hf : ∀ k, k ≠ "price_lifetime" → k ≠ "durations" →
                    fields d1 !! k = fields d2 !! k).
  { intros k H1 H2. rewrite <- (forget_fields d1), <- (forget_fields d2) by done.
    by rewrite Hd. }
  unfold order_response.
  rewrite Hoid, (Hf "price_monthly"), (Hf "name"), Hord by done.
  destruct (multiplier_table !! _); [|done].
  destruct (py_float (default _ (fields d2 !! "price_monthly"))); [|done].
  destruct (py_float (VInt _)); [|done].
  destruct (OrderSchema _ _ _ _ _ _ _ _ _ _ _); [|done].
  destruct (bool_decide _); [done|].
  cbn [fst snd]. by rewrite !coll_insert_eq.
Qed.

(** C1: when [product_slug] finds the product [d], a package outside the
    table is refused with 400 "Invalid package"; otherwise the price of every
    order that is created is [float(price_monthly) * factor], with
    [price_monthly] read as 0 when absent and the factor 1, 3, 6, 12 or 20
    of the package, both in the stored order document and in the [amount]
    of the response; a request that passes validation does create the
    order; and [price_lifetime] and [durations] have no influence. *)
Theorem create_order_price (e : env) (payload : OrderCreate.t) (db : database)
    (d : document) :
  List.find (matches (by_slug (OrderCreate.product_slug payload)))
            (coll db "product") = Some d →
  (OrderCreate.package payload ∉ package_factors.*1 →
     create_order e payload db = (Raise (HTTPException 400 "Invalid package"), db))
  ∧ (∀ resp db', create_order e payload db = (Return resp, db') →
       ∃ b f o,
         (OrderCreate.package payload, f) ∈ package_factors
         ∧ py_float (default (VInt 0) (fields d !! "price_monthly")) = Return b
         ∧ resp !! "amount" = Some (VFloat (b * f)%float)
         ∧ coll db' "order" = coll db "order" ++ [o]
         ∧ fields o !! "price" = Some (VFloat (b * f)%float))
  ∧ (fields d !! "price_monthly" = None →
       py_float (default (VInt 0) (fields d !! "price_monthly")) = Return 0%float)
  ∧ (∀ b f, (OrderCreate.package payload, f) ∈ package_factors →
       priced d b → (0 <=? b * f)%float = true → accepted payload →
       new_oid e 0 ∉ (oid <$> coll db "order") →
       ∃ resp db', create_order e payload db = (Return resp, db'))
  ∧ (∀ db2,
       forget_unused <$> coll db2 "product" = forget_unused <$> coll db "product" →
       coll db2 "order" = coll db "order" →
       (create_order e payload db2).1 = (create_order e payload db).1
       ∧ coll (create_order e payload db2).2 "order"
         = coll (create_order e payload db).2 "order").
Proof.
  intros Hfind. split.
  { intros Hout. apply multiplier_None in Hout.
    by rewrite create_order_unfold, Hfind, Hout. }
  split.
  { intros resp db' Hret.
    apply create_order_Return in Hret
      as (d' & b & f & order & Hfind' & Hf & Hb & Hprice & _ & _ & _ & -> & ->).
    rewrite Hfind in Hfind'. injection Hfind' as <-.
    exists b, f, {| oid := new_oid e 0; fields := Order.dump order |}.
    rewrite coll_insert_eq, response_amount. simpl.
    by rewrite dump_price, Hprice. }
  split.
  { intros ->. reflexivity. }
  split.
  { intros b f Hf Hpr Hpos Hacc Hfresh.
    destruct (create_order_succeeds e payload db d b f) as (order & _ & _ & ->);
      eauto. }
  intros db2. apply create_order_ignores.
Qed.

(** C4: the [payment] entry of a successful [create_order] response is
    [instructions_for] the request's payment method, whatever the product,
    package, price, buyer and order code are; so two successful calls with the
    same method receive the same instructions.  [instructions_for] is the
    fixed QRIS, Bank Transfer or E-Wallet entry, and the fallback for every
    other string. *)
Theorem payment_by_method_alone (e1 e2 : env) (p1 p2 : OrderCreate.t)
    (db1 db2 db1' db2' : database) (r1 r2 : dict) :
  create_order e1 p1 db1 = (Return r1, db1') →
  create_order e2 p2 db2 = (Return r2, db2') →
  OrderCreate.payment_method p1 = OrderCreate.payment_method p2 →
  r1 !! "payment" = r2 !! "payment"
  ∧ r1 !! "payment" = Some (VDict (instructions_for (OrderCreate.payment_method p1)))
  ∧ (∀ method, method ∈ ["QRIS"; "Bank Transfer"; "E-Wallet"] ↔
               is_Some (instruction_table !! method))
  ∧ (∀ method, method ∉ ["QRIS"; "Bank Transfer"; "E-Wallet"] →
               instructions_for method = fallback_instruction).
Proof.
  intros Hr1 Hr2 Hpm.
  apply create_order_Return in Hr1 as (d1 & b1 & f1 & o1 & _ & _ & _ & _ & _ & _ & _ & -> & _).
  apply create_order_Return in Hr2 as (d2 & b2 & f2 & o2 & _ & _ & _ & _ & _ & _ & _ & -> & _).
  rewrite !response_payment, Hpm.
  assert (Hdom : ∀ method, method ∈ ["QRIS"; "Bank Transfer"; "E-Wallet"] ↔
                           is_Some (instruction_table !! method)).
  { intros method. rewrite <- elem_of_dom. unfold instruction_table.
    rewrite !dom_insert_L, dom_singleton_L. set_solver. }
  repeat split; try done; try apply Hdom.
  intros method Hm. unfold instructions_for.
  destruct (instruction_table !! method) eqn:Hl; [|done].
  exfalso. apply Hm, Hdom. eauto.
Qed.

End OrderFacts.


(** ** Payments *)

Section PaymentFacts.
Context `{Platform}.

Lemma matches_id o d : matches [Id (VOid o)] d = bool_decide (oid d = o).
Proof. unfold matches. simpl. by rewrite andb_true_r. Qed.

(** With unique identifiers, updating by [_id] rewrites exactly the document
    that carries it. *)
Lemma update_first_id set l i o :
  NoDup (oid <$> l) → l !! i = Some o →
  update_first [Id (VOid (oid o))] set l = <[i := apply_set set o]> l.
Proof.
  revert i. induction l as [|d l IH]; intros i Hnd Hi; [done|].
  rewrite fmap_cons in Hnd. apply NoDup_cons in Hnd as [Hd Hnd].
  cbn [update_first]. rewrite matches_id.
  destruct i as [|i]; simpl in Hi.
  - injection Hi as ->. by rewrite bool_decide_eq_true_2.
  - rewrite bool_decide_eq_false_2.
    + simpl. f_equal. by apply IH.
    + intros Heq. apply Hd. rewrite Heq.
      apply list_elem_of_fmap. exists o. split; [done|].
      by apply list_elem_of_lookup_2 in Hi.
Qed.

(** Whatever the filter, an update leaves each document as it was or
    applies the [$set] to it. *)
Lemma update_first_elem q set l d' :
  d' ∈ update_first q set l → d' ∈ l ∨ ∃ d, d ∈ l ∧ d' = apply_set set d.
Proof.
  induction l as [|d l IH]; simpl; [by left|].
  destruct (matches q d).
  - intros Hin. apply elem_of_cons in Hin as [->|Hin].
    + right. exists d. split; [left|done].
    + left. by right.
  - intros Hin. apply elem_of_cons in Hin as [->|Hin]; [left; left|].
    destruct (IH Hin) as [Hl|(d0 & Hd0 & ->)]; [left; by right|].
    right. exists d0. split; [by right|done].
Qed.

Lemma find_Some_coll (f : document → bool) db name o :
  List.find f (coll db name) = Some o → db !! name = Some (coll db name).
Proof.
  unfold coll. destruct (db !! name); [done|discriminate].
Qed.

(** [payment_notify], one case per exit. *)
Lemma payment_notify_unfold e payload db :
  payment_notify e payload db
  = match List.find (matches (by_order_code (PaymentNotify.order_code payload)))
                    (coll db "order") with
    | None => (Raise (HTTPException 404 "Order not found"), db)
    | Some o =>
        (Return (notify_response payload),
         <["order" := update_first [Id (VOid (oid o))] (notify_set e payload)
                        (coll db "order")]> db)
    end.
Proof.
  unfold payment_notify, bind. rewrite find_one_equals.
  fold (by_order_code (PaymentNotify.order_code payload)).
  destruct (List.find _ _) as [o|] eqn:Hfind; [|done].
  cbn [fmap option_fmap option_map]. rewrite truthy_as_dict. cbn [negb default].
  change (id (as_dict o)) with (as_dict o).
  unfold pure_step, getitem. rewrite as_dict_id.
  unfold update_one, notify_response, notify_set, credentials.
  cbn [query_ok forallb clause_ok andb].
  destruct (decide (PaymentNotify.status payload = "paid")) as [Hpaid|Hpaid].
  - rewrite !(bool_decide_eq_true_2 _ Hpaid).
    rewrite (bool_decide_eq_true_2 ("paid" = "paid")) by done.
    cbv beta. by rewrite (find_Some_coll _ _ _ _ Hfind).
  - rewrite !(bool_decide_eq_false_2 _ Hpaid).
    rewrite (bool_decide_eq_false_2 ("failed" = "paid")) by done.
    cbv beta. by rewrite (find_Some_coll _ _ _ _ Hfind).
Qed.

Lemma notify_set_status e payload :
  notify_set e payload !! "status"
  = Some (VStr (stored_status (PaymentNotify.status payload))).
Proof.
  unfold notify_set, stored_status. by case_bool_decide.
Qed.

Lemma notify_set_other e payload k :
  k ∉ ["status"; "delivered_payload"; "updated_at"] →
  notify_set e payload !! k = None.
Proof.
  intros Hk. unfold notify_set.
  assert (k ≠ "status" ∧ k ≠ "delivered_payload" ∧ k ≠ "updated_at")
    as (H1 & H2 & H3) by set_solver.
  case_bool_decide; by simplify_map_eq.
Qed.

Lemma notify_response_fields payload :
  notify_response payload !! "updated" = Some (VBool true)
  ∧ notify_response payload !! "status"
    = Some (VStr (stored_status (PaymentNotify.status payload))).
Proof.
  unfold notify_response, stored_status. by case_bool_decide.
Qed.

(** A notification for a found order: the response, and the store with
    exactly that order rewritten. *)
Lemma payment_notify_found e payload db o :
  NoDup (oid <$> coll db "order") →
  List.find (matches (by_order_code (PaymentNotify.order_code payload)))
            (coll db "order") = Some o →
  ∃ i, coll db "order" !! i = Some o
       ∧ payment_notify e payload db
         = (Return (notify_response payload),
            <["order" := <[i := apply_set (notify_set e payload) o]>
                           (coll db "order")]> db).
Proof.
  intros Hnd Hfind. rewrite payment_notify_unfold, Hfind.
  destruct (find_Some_first _ _ _ Hfind) as (i & Hi & _).
  exists i. split; [done|]. by rewrite (update_first_id _ _ i).
Qed.

(** C2: in an order collection with unique identifiers, a notification
    whose [order_code] finds the order [o] sets the stored status of [o] to
    "delivered" when the notified status is "paid" and to "failed" for every
    other status, keeps the other orders, the other fields of [o] (except
    [delivered_payload] and [updated_at]) and the other collections as they
    were, and returns [updated = true] with the stored status; when no order
    is found it raises 404 "Order not found" and leaves the store unchanged,
    which is the case exactly when no order has that [order_code]. *)
Theorem payment_notify_spec (e : env) (payload : PaymentNotify.t) (db : database) :
  NoDup (oid <$> coll db "order") →
  (∀ o, List.find (matches (by_order_code (PaymentNotify.order_code payload)))
                  (coll db "order") = Some o →
     ∃ resp db' i o',
       payment_notify e payload db = (Return resp, db')
       ∧ resp !! "updated" = Some (VBool true)
       ∧ resp !! "status" = Some (VStr (stored_status (PaymentNotify.status payload)))
       ∧ coll db "order" !! i = Some o
       ∧ coll db' "order" = <[i := o']> (coll db "order")
       ∧ oid o' = oid o
       ∧ fields o' !! "status"
         = Some (VStr (stored_status (PaymentNotify.status payload)))
       ∧ (∀ k, k ∉ ["status"; "delivered_payload"; "updated_at"] →
               fields o' !! k = fields o !! k)
       ∧ (∀ c, c ≠ "order" → coll db' c = coll db c))
  ∧ (List.find (matches (by_order_code (PaymentNotify.order_code payload)))
               (coll db "order") = None →
     payment_notify e payload db
     = (Raise (HTTPException 404 "Order not found"), db))
  ∧ (stored_status "paid" = "delivered"
     ∧ ∀ s, s ≠ "paid" → stored_status s = "failed")
  ∧ (scalars ["order_code"] (coll db "order") = true →
     (List.find (matches (by_order_code (PaymentNotify.order_code payload)))
                (coll db "order") = None
      ↔ ∀ o, o ∈ coll db "order" →
             fields o !! "order_code"
             ≠ Some (VStr (PaymentNotify.order_code payload)))).
Proof.
  intros Hnd. split.
  { intros o Hfind.
    destruct (payment_notify_found e payload db o Hnd Hfind) as (i & Hi & ->).
    destruct (notify_response_fields payload) as [Hup Hst].
    eexists _, _, i, (apply_set (notify_set e payload) o).
    split; [reflexivity|]. rewrite coll_insert_eq.
    repeat split; try done.
    - simpl. apply lookup_union_Some_l, notify_set_status.
    - intros k Hk. simpl. apply lookup_union_r. by apply notify_set_other.
    - intros c Hc. by rewrite coll_insert_ne. }
  split.
  { intros Hnone. by rewrite payment_notify_unfold, Hnone. }
  split.
  { split; [done|]. intros s Hs. unfold stored_status.
    by rewrite bool_decide_eq_false_2. }
  intros Hsc. rewrite find_None_all. split.
  - intros Hall o Ho Hcode. specialize (Hall o Ho).
    unfold by_order_code in Hall. rewrite matches_field_equals in Hall.
    assert (eq_match (QStr (PaymentNotify.order_code payload))
                     (fields o !! "order_code") = true); [|congruence].
    apply eq_match_scalar; [|done].
    apply (scalars_elem _ _ _ _ Hsc Ho). left.
  - intros Hall o Ho. specialize (Hall o Ho).
    unfold by_order_code. rewrite matches_field_equals.
    apply not_true_is_false. intros Hm. apply Hall.
    apply eq_match_scalar in Hm; [done|].
    apply (scalars_elem _ _ _ _ Hsc Ho). left.
Qed.

(** C3: in an order collection with unique identifiers, a "paid"
    notification whose [order_code] finds the order [o] delivers
    [credentials] of that order code, a function of the code alone whose
    username is "demo_" + lowercased code + "@nasirstore.io" and whose
    password is "AutoGenerated123!"; the same dictionary is stored on [o] as
    [delivered_payload] and returned in the response. *)
Theorem delivered_credentials (e : env) (payload : PaymentNotify.t) (db : database)
    (o : document) :
  NoDup (oid <$> coll db "order") →
  PaymentNotify.status payload = "paid" →
  List.find (matches (by_order_code (PaymentNotify.order_code payload)))
            (coll db "order") = Some o →
  ∃ resp db' i o',
    payment_notify e payload db = (Return resp, db')
    ∧ resp !! "delivered_payload"
      = Some (VDict (credentials (PaymentNotify.order_code payload)))
    ∧ coll db "order" !! i = Some o
    ∧ coll db' "order" = <[i := o']> (coll db "order")
    ∧ oid o' = oid o
    ∧ fields o' !! "delivered_payload"
      = Some (VDict (credentials (PaymentNotify.order_code payload)))
    ∧ credentials (PaymentNotify.order_code payload) !! "username"
      = Some (VStr ("demo_" +:+ str_lower (PaymentNotify.order_code payload)
                    +:+ "@nasirstore.io"))
    ∧ credentials (PaymentNotify.order_code payload) !! "password"
      = Some (VStr "AutoGenerated123!").
Proof.
  intros Hnd Hpaid Hfind.
  destruct (payment_notify_found e payload db o Hnd Hfind) as (i & Hi & ->).
  eexists _, _, i, (apply_set (notify_set e payload) o).
  split; [reflexivity|]. rewrite coll_insert_eq.
  unfold notify_response, notify_set. rewrite !(bool_decide_eq_true_2 _ Hpaid).
  repeat split; try done.
  simpl. by apply lookup_union_Some_l.
Qed.

End PaymentFacts.


(** ** Insertions *)

Section InsertFacts.
Context `{Platform}.

Lemma create_document_fresh name o data db :
  encodable (VDict data) = true →
  o ∉ (oid <$> coll db name) →
  create_document name o data db
  = (Return (VStr (py_str (VOid o))),
     <[name := coll db name
         ++ [{| oid := o; fields := as_stored <$> data |}]]> db).
Proof.
  intros Henc Hfresh. unfold create_document, bind, insert_one.
  by rewrite Henc, bool_decide_eq_false_2.
Qed.


(** [create_document] writes to the named collection only, and only at its
    end. *)
Lemma create_document_frame name o data db :
  (∃ l, coll (create_document name o data db).2 name = coll db name ++ l)
  ∧ ∀ c, c ≠ name → (create_document name o data db).2 !! c = db !! c.
Proof.
  unfold create_document, bind, insert_one.
  destruct (negb _); simpl; [split; [exists []; by rewrite app_nil_r|done]|].
  case_bool_decide; simpl.
  - split; [exists []; by rewrite app_nil_r|done].
  - split; [rewrite coll_insert_eq; eauto|].
    intros c Hc. by rewrite lookup_insert_ne.
Qed.

Lemma testimonial_dump_stored tb :
  encodable (VDict (Testimonial.dump tb)) = true
  ∧ as_stored <$> Testimonial.dump tb = Testimonial.dump tb.
Proof. destruct tb as [? ? ? slug]. destruct slug; split; reflexivity. Qed.

Lemma contact_dump_stored cb :
  encodable (VDict (ContactMessage.dump cb)) = true
  ∧ as_stored <$> ContactMessage.dump cb = ContactMessage.dump cb.
Proof. destruct cb as [? ? wa ?]. destruct wa; split; reflexivity. Qed.

(** C7: for a valid testimonial and a contact message, with identifiers
    minted fresh for their collections, [create_testimonial] appends exactly
    the dumped body to "testimonial" and [create_contact] to
    "contactmessage", each returns the identifier of the inserted document,
    and every other collection and every document already stored stays as
    it was. *)
Theorem create_testimonial_contact_frame (e : env) (tb : Testimonial.t)
    (cb : ContactMessage.t) (db : database) :
  Testimonial.valid tb = true →
  new_oid e 0 ∉ (oid <$> coll db "testimonial") →
  new_oid e 0 ∉ (oid <$> coll db "contactmessage") →
  (∃ db', create_testimonial e tb db
          = (Return {[ "inserted_id" := VStr (py_str (VOid (new_oid e 0))) ]}, db')
     ∧ coll db' "testimonial"
       = coll db "testimonial"
         ++ [{| oid := new_oid e 0; fields := Testimonial.dump tb |}]
     ∧ ∀ c, c ≠ "testimonial" → db' !! c = db !! c)
  ∧ (∃ db', create_contact e cb db
            = (Return {[ "inserted_id" := VStr (py_str (VOid (new_oid e 0))) ]}, db')
     ∧ coll db' "contactmessage"
       = coll db "contactmessage"
         ++ [{| oid := new_oid e 0; fields := ContactMessage.dump cb |}]
     ∧ ∀ c, c ≠ "contactmessage" → db' !! c = db !! c).
Proof.
  intros _ Ht Hc.
  destruct (testimonial_dump_stored tb) as [Henct Hstt].
  destruct (contact_dump_stored cb) as [Hencc Hstc].
  split.
  - eexists. unfold create_testimonial, bind.
    rewrite (create_document_fresh _ _ _ _ Henct Ht), Hstt.
    split; [reflexivity|].
    rewrite coll_insert_eq. split; [done|].
    intros c Hne. by rewrite lookup_insert_ne.
  - eexists. unfold create_contact, bind.
    rewrite (create_document_fresh _ _ _ _ Hencc Hc), Hstc.
    split; [reflexivity|].
    rewrite coll_insert_eq. split; [done|].
    intros c Hne. by rewrite lookup_insert_ne.
Qed.

(** *** Seeding *)

Lemma insert_samples_frame e ps k db :
  (∃ l, coll (insert_samples e k ps db).2 "product" = coll db "product" ++ l)
  ∧ ∀ c, c ≠ "product" → (insert_samples e k ps db).2 !! c = db !! c.
Proof.
  revert k db. induction ps as [|p ps IH]; intros k db.
  - simpl. split; [exists []; by rewrite app_nil_r|done].
  - cbn [insert_samples]. unfold bind.
    destruct (create_document_frame "product" (new_oid e k) (Product.dump p) db)
      as [[l Hl] Hother].
    destruct (create_document _ _ _ db) as [[v|err] db1] eqn:Hcd; simpl in *.
    + destruct (IH (S k) db1) as [[l' Hl'] Hother'].
      split.
      * exists (l ++ l'). by rewrite Hl', Hl, app_assoc.
      * intros c Hc. by rewrite Hother', Hother.
    + split; [eauto|done].
Qed.

Lemma strings_stored (l : list string) :
  forallb encodable (VStr <$> l) = true
  ∧ as_stored <$> (VStr <$> l) = VStr <$> l.
Proof.
  induction l as [|x l [IH1 IH2]]; [done|]. rewrite !fmap_cons. split.
  - cbn [forallb encodable]. exact IH1.
  - cbn [as_stored]. by rewrite IH2.
Qed.

(** A dictionary is encodable when every value in it is. *)
Lemma encodable_dict (m : dict) :
  encodable (VDict m) = true ↔ map_Forall (λ _ v, encodable v = true) m.
Proof.
  cbn [encodable].
  apply (map_fold_weak_ind
           (λ r (m : dict), r = true ↔ map_Forall (λ _ v, encodable v = true) m)).
  - split; [intros _; apply map_Forall_empty|done].
  - intros k v m' r Hk IH. rewrite andb_true_iff, IH, map_Forall_insert by done.
    done.
Qed.

(** A product is encodable exactly without a logo address: the [Url] object
    is what BSON has no type for. *)
Lemma product_dump_encodable p :
  encodable (VDict (Product.dump p)) = bool_decide (Product.logo_url p = None).
Proof.
  destruct (Product.logo_url p) as [u|] eqn:Hlogo.
  - rewrite bool_decide_eq_false_2 by done. apply not_true_is_false.
    rewrite encodable_dict. intros Hall.
    assert (Hl : Product.dump p !! "logo_url" = Some (VUrl u)).
    { unfold Product.dump. rewrite Hlogo. reflexivity. }
    by apply (map_Forall_lookup_1 _ _ _ _ Hall) in Hl.
  - rewrite bool_decide_eq_true_2 by done. apply encodable_dict.
    unfold Product.dump. rewrite Hlogo.
    repeat (apply map_Forall_insert_2; [try done|]).
    + cbn [encodable]. apply strings_stored.
    + by destruct (Product.price_lifetime p).
    + apply map_Forall_empty.
Qed.

Lemma product_dump_stored p :
  Product.logo_url p = None →
  as_stored <$> Product.dump p = Product.dump p.
Proof.
  intros Hlogo. unfold Product.dump. rewrite Hlogo.
  rewrite !fmap_insert, map_fmap_singleton. cbn [as_stored of_option].
  destruct (strings_stored (Product.durations p)) as [_ ->].
  by destruct (Product.price_lifetime p).
Qed.

(** The loop of [seed_products] stores its products in order when none of
    them carries a logo address and the minted identifiers are new. *)
Lemma insert_samples_fresh e ps k db :
  Forall (λ p, Product.logo_url p = None) ps →
  NoDup (new_oid e <$> seq k (length ps)) →
  (∀ i, i ∈ seq k (length ps) → new_oid e i ∉ (oid <$> coll db "product")) →
  ∃ db', insert_samples e k ps db = (Return (), db')
         ∧ coll db' "product" = coll db "product" ++ sample_docs e k ps
         ∧ ∀ c, c ≠ "product" → db' !! c = db !! c.
Proof.
  revert k db. induction ps as [|p ps IH]; intros k db Hlogo Hnd Hfresh.
  - exists db. simpl. unfold sample_docs. simpl. by rewrite app_nil_r.
  - cbn [insert_samples]. unfold bind.
    apply Forall_cons in Hlogo as [Hp Hlogo].
    simpl in Hnd. apply NoDup_cons in Hnd as [Hk Hnd].
    rewrite create_document_fresh;
      [|by rewrite product_dump_encodable, bool_decide_eq_true_2
       |apply Hfresh; simpl; left].
    rewrite (product_dump_stored p Hp).
    destruct (IH (S k) (<["product" := coll db "product"
                ++ [{| oid := new_oid e k; fields := Product.dump p |}]]> db))
      as (db' & -> & Hcoll & Hother); [done|done| |].
    { intros i Hi. rewrite coll_insert_eq, fmap_app, elem_of_app.
      intros [Hin|Hin].
      - revert Hin. apply Hfresh. simpl. by right.
      - simpl in Hin. apply list_elem_of_singleton in Hin.
        apply Hk. rewrite <- Hin. by apply list_elem_of_fmap_2. }
    exists db'. split; [done|]. split.
    + rewrite Hcoll, coll_insert_eq, <- app_assoc. f_equal.
      unfold sample_docs. simpl. rewrite Nat.add_0_r. f_equal.
      apply imap_ext. intros i x _. simpl. do 2 f_equal. lia.
    + intros c Hc. by rewrite Hother, lookup_insert_ne.
Qed.


Lemma seed_products_unfold e db :
  seed_products e db
  = if bool_decide (0 < length (coll db "product"))
    then (Return already_seeded, db)
    else match insert_samples e 0 samples db with
         | (Return _, db') =>
             (Return {[ "seeded" := VBool true; "count" := VInt 5 ]}, db')
         | (Raise err, db') => (Raise err, db')
         end.
Proof.
  unfold seed_products, bind, count_documents. cbn [query_ok forallb].
  assert (Hall : List.filter (matches []) (coll db "product") = coll db "product").
  { induction (coll db "product") as [|d l IH]; simpl; [done|]. by f_equal. }
  rewrite Hall. case_bool_decide; [done|].
  destruct (insert_samples _ _ _ _) as [[u|err] db']; done.
Qed.


End InsertFacts.


(** ** Inactive products *)

Section InactiveFacts.
Context `{Platform}.

Lemma find_only {A} (f : A → bool) (l : list A) (x : A) :
  x ∈ l → f x = true → (∀ y, y ∈ l → f y = true → y = x) →
  List.find f l = Some x.
Proof.
  intros Hx Hfx Honly. destruct (List.find f l) as [y|] eqn:Hfind.
  - destruct (find_Some_first _ _ _ Hfind) as (i & Hi & Hfy & _).
    f_equal. apply Honly; [|done]. by apply list_elem_of_lookup_2 in Hi.
  - rewrite find_None_all in Hfind. rewrite (Hfind x Hx) in Hfx. discriminate.
Qed.

(** C8, as the code has it: for a stored product [d] with
    [is_active = false] that is the only product its slug finds,
    [get_product] raises 404 for the slug, yet [create_order] for the same
    slug, with a package of the price table and a request that passes the
    Order validation (a string product name, a price that is not negative,
    an accepted email, a payment method and a delivery channel of the
    schema) and a fresh identifier, succeeds and stores a pending order
    priced from [d]. *)
Theorem inactive_product_sold (e : env) (payload : OrderCreate.t) (db : database)
    (d : document) (b f : float) :
  d ∈ coll db "product" →
  fields d !! "slug" = Some (VStr (OrderCreate.product_slug payload)) →
  fields d !! "is_active" = Some (VBool false) →
  (∀ d', d' ∈ coll db "product" →
         matches (by_slug (OrderCreate.product_slug payload)) d' = true → d' = d) →
  (OrderCreate.package payload, f) ∈ package_factors →
  priced d b → (0 <=? b * f)%float = true →
  accepted payload →
  new_oid e 0 ∉ (oid <$> coll db "order") →
  (get_product (OrderCreate.product_slug payload) db).1
  = Raise (HTTPException 404 "Product not found")
  ∧ ∃ resp db' o,
      create_order e payload db = (Return resp, db')
      ∧ resp !! "status" = Some (VStr "pending")
      ∧ resp !! "amount" = Some (VFloat (b * f)%float)
      ∧ coll db' "order" = coll db "order" ++ [o]
      ∧ fields o !! "status" = Some (VStr "pending")
      ∧ fields o !! "price" = Some (VFloat (b * f)%float).
Proof.
  intros Hd Hslug Hinactive Honly Hf Hpriced Hpos Hacc Hfresh.
  assert (Hmd : matches (by_slug (OrderCreate.product_slug payload)) d = true).
  { unfold by_slug. rewrite matches_field_equals, Hslug. simpl.
    by apply bool_decide_eq_true_2. }
  split.
  - rewrite get_product_unfold.
    destruct (List.find _ _) as [d'|] eqn:Hfind; [|done]. exfalso.
    destruct (find_Some_first _ _ _ Hfind) as (i & Hi & Hm & _).
    apply list_elem_of_lookup_2 in Hi.
    unfold matches in Hm. simpl in Hm.
    rewrite andb_true_r, andb_true_iff in Hm. destruct Hm as [Hms Hma].
    assert (d' = d) as ->.
    { apply Honly; [done|]. unfold by_slug. by rewrite matches_field_equals. }
    rewrite Hinactive in Hma. simpl in Hma. discriminate Hma.
  - destruct (create_order_succeeds e payload db d b f)
      as (order & Hprice & Hst & ->); try done.
    { by apply find_only. }
    eexists _, _, _. split; [reflexivity|].
    rewrite coll_insert_eq, response_status, response_amount.
    repeat split; try done; simpl.
    + by rewrite dump_status, Hst.
    + by rewrite dump_price, Hprice.
Qed.

End InactiveFacts.

(** ** Statuses *)

Section StatusFacts.
Context `{Platform}.

Lemma lookup_eq_coll (db db' : database) c :
  db' !! c = db !! c → coll db' c = coll db c.
Proof. unfold coll. by intros ->. Qed.

Lemma get_order_unfold code db : (get_order code db).2 = db.
Proof.
  unfold get_order, bind. rewrite find_one_equals.
  by destruct (negb _).
Qed.

Lemma list_products_store q category featured limit db :
  (list_products q category featured limit db).2 = db.
Proof.
  rewrite list_products_unfold. cbv zeta.
  destruct (negb _); [done|]. by destruct (query_ok _).
Qed.

Lemma create_order_orders e payload db o' :
  o' ∈ coll (create_order e payload db).2 "order" →
  o' ∈ coll db "order" ∨ fields o' !! "status" = Some (VStr "pending").
Proof.
  destruct (create_order e payload db) as [[resp|err] db'] eqn:Hrun.
  - apply create_order_Return in Hrun
      as (d & b & f & order & _ & _ & _ & _ & Hst & _ & _ & _ & ->).
    simpl. rewrite coll_insert_eq, elem_of_app.
    intros [Hold|Hnew]; [by left|right].
    apply list_elem_of_singleton in Hnew as ->. simpl.
    by rewrite dump_status, Hst.
  - rewrite create_order_unfold in Hrun.
    repeat match type of Hrun with
           | match ?x with _ => _ end = _ => destruct x
           | (if ?x then _ else _) = _ => destruct x
           end; try discriminate; injection Hrun as _ <-; by left.
Qed.

Lemma payment_notify_orders e payload db o' :
  o' ∈ coll (payment_notify e payload db).2 "order" →
  o' ∈ coll db "order"
  ∨ fields o' !! "status" = Some (VStr (stored_status (PaymentNotify.status payload))).
Proof.
  rewrite payment_notify_unfold.
  destruct (List.find _ _) as [o|]; [|by left].
  simpl. rewrite coll_insert_eq. intros Hin.
  apply update_first_elem in Hin as [Hold|(d & _ & ->)]; [by left|right].
  simpl. apply lookup_union_Some_l, notify_set_status.
Qed.

Lemma stored_status_written s : stored_status s ∈ written_statuses.
Proof. unfold stored_status, written_statuses. case_bool_decide; set_solver. Qed.

(** One request: every order in the store afterwards was there before, or
    carries a written status. *)
Lemma serve_orders e r db o' :
  o' ∈ coll (serve e r db) "order" →
  o' ∈ coll db "order" ∨ status_written o'.
Proof.
  destruct r; simpl.
  - rewrite list_products_store. by left.
  - rewrite get_product_unfold. destruct (List.find _ _); by left.
  - assert (Hfr : coll (seed_products e db).2 "order" = coll db "order").
    { rewrite seed_products_unfold. case_bool_decide; [done|].
      destruct (insert_samples_frame e samples 0 db) as [_ Hother].
      destruct (insert_samples e 0 samples db) as [[u|err] db'];
        simpl in *; by apply lookup_eq_coll, Hother. }
    rewrite Hfr. by left.
  - intros Hin. apply create_order_orders in Hin as [Hold|Hst]; [by left|right].
    exists "pending". split; [done|]. unfold written_statuses. set_solver.
  - rewrite get_order_unfold. by left.
  - intros Hin. apply payment_notify_orders in Hin as [Hold|Hst]; [by left|right].
    eexists. split; [exact Hst|apply stored_status_written].
  - unfold create_testimonial, bind.
    destruct (create_document_frame "testimonial" (new_oid e 0)
                (Testimonial.dump body) db) as [_ Hother].
    destruct (create_document _ _ _ db) as [[v|err] db']; simpl in *;
      rewrite (lookup_eq_coll db db' "order") by (by apply Hother); by left.
  - unfold create_contact, bind.
    destruct (create_document_frame "contactmessage" (new_oid e 0)
                (ContactMessage.dump body) db) as [_ Hother].
    destruct (create_document _ _ _ db) as [[v|err] db']; simpl in *;
      rewrite (lookup_eq_coll db db' "order") by (by apply Hother); by left.
Qed.

Lemma run_orders trace db :
  (∀ o, o ∈ coll db "order" → status_written o) →
  ∀ o, o ∈ coll (run trace db) "order" → status_written o.
Proof.
  revert db. induction trace as [|[e r] trace IH]; intros db Hinv; [done|].
  simpl. apply IH. intros o Ho.
  apply serve_orders in Ho as [Hold|Hw]; [by apply Hinv|done].
Qed.

(** C10: after any request every order document is one that was stored
    before or has a status among "pending", "delivered" and "failed";
    [create_order] stores "pending" and [payment_notify] stores
    "delivered" or "failed"; hence in every store the API reaches from the
    empty one all order statuses lie in that set, and none is "paid". *)
Theorem statuses_written_by_api :
  (∀ e r db o, o ∈ coll (serve e r db) "order" →
               o ∈ coll db "order" ∨ status_written o)
  ∧ (∀ e payload db o, o ∈ coll (create_order e payload db).2 "order" →
       o ∈ coll db "order" ∨ fields o !! "status" = Some (VStr "pending"))
  ∧ (∀ e payload db o, o ∈ coll (payment_notify e payload db).2 "order" →
       o ∈ coll db "order"
       ∨ fields o !! "status" = Some (VStr "delivered")
       ∨ fields o !! "status" = Some (VStr "failed"))
  ∧ (∀ trace o, o ∈ coll (run trace ∅) "order" →
       status_written o ∧ fields o !! "status" ≠ Some (VStr "paid")).
Proof.
  split; [apply serve_orders|]. split; [apply create_order_orders|]. split.
  { intros e payload db o Ho.
    apply payment_notify_orders in Ho as [Hold|Hst]; [by left|right].
    unfold stored_status in Hst. by case_bool_decide; [left|right]. }
  intros trace o Ho.
  assert (Hw : status_written o).
  { apply (run_orders trace ∅); [|done].
    intros o0 Ho0. unfold coll in Ho0. rewrite lookup_empty in Ho0.
    by apply elem_of_nil in Ho0. }
  split; [done|]. destruct Hw as (s & Hs & Hin). rewrite Hs.
  intros [= ->]. unfold written_statuses in Hin. set_solver.
Qed.

End StatusFacts.


(** * Further properties of the endpoints *)

(** ** Order codes *)

Lemma zeros_S k :
  String.concat "" (replicate (S k) "0")
  = String (Ascii.ascii_of_nat 48) (String.concat "" (replicate k "0")).
Proof. by destruct k. Qed.

Lemma read_zero s :
  read_decimal (String (Ascii.ascii_of_nat 48) s) = read_decimal s.
Proof.
  unfold read_decimal. cbn [NilEmpty.uint_of_string].
  by destruct (NilEmpty.uint_of_string s).
Qed.

(** Reading a padded numeral gives the number back, whatever the width. *)
Lemma pad_read w n : read_decimal (pad w n) = Some n.
Proof.
  unfold pad. cbv zeta.
  induction (w - String.length _) as [|k IH].
  - cbn [replicate String.concat]. change ("" +:+ ?s) with s.
    unfold read_decimal. rewrite NilEmpty.usu. simpl.
    by rewrite DecimalNat.Unsigned.of_to.
  - rewrite zeros_S.
    change (String (Ascii.ascii_of_nat 48) ?a +:+ ?b)
      with (String (Ascii.ascii_of_nat 48) (a +:+ b)).
    by rewrite read_zero.
Qed.

Lemma pad_inj w n m : pad w n = pad w m → n = m.
Proof.
  intros Heq. apply (f_equal read_decimal) in Heq.
  rewrite !pad_read in Heq. congruence.
Qed.

Lemma pad2_length n : n < 100 → String.length (pad 2 n) = 2.
Proof.
  intros Hn.
  assert (Hall : forallb (λ n, String.length (pad 2 n) =? 2) (seq 0 100) = true)
    by (vm_compute; reflexivity).
  rewrite forallb_forall in Hall.
  apply Nat.eqb_eq, Hall, list_elem_of_In, elem_of_seq. lia.
Qed.

Lemma pad4_length n : 1000 ≤ n < 10 * 1000 → String.length (pad 4 n) = 4.
Proof.
  intros Hn.
  assert (Hall : forallb (λ n, String.length (pad 4 n) =? 4)
                         (seq 1000 (9 * 1000)) = true)
    by (vm_compute; reflexivity).
  rewrite forallb_forall in Hall.
  apply Nat.eqb_eq, Hall, list_elem_of_In, elem_of_seq. lia.
Qed.

Lemma append_inj_length (a b c d : string) :
  String.length a = String.length c → a +:+ b = c +:+ d → a = c ∧ b = d.
Proof.
  revert c. induction a as [|x a IH]; intros [|y c] Hlen Heq; try discriminate.
  - done.
  - simpl in *. injection Heq as -> Heq. injection Hlen as Hlen.
    by destruct (IH c Hlen Heq) as [-> ->].
Qed.

Lemma append_length (a b : string) :
  String.length (a +:+ b) = String.length a + String.length b.
Proof. induction a as [|x a IH]; simpl; [done|by rewrite IH]. Qed.

Lemma is_datetime_bounds t :
  is_datetime t →
  1000 ≤ year t < 10 * 1000 ∧ month t < 100 ∧ day t < 100
  ∧ hour t < 100 ∧ minute t < 100 ∧ second t < 100.
Proof. unfold is_datetime. lia. Qed.

Lemma strftime_length t : is_datetime t → String.length (strftime t) = 14.
Proof.
  intros Ht. apply is_datetime_bounds in Ht as (Hy & Hmo & Hd & Hh & Hmi & Hs).
  unfold strftime. rewrite !append_length, pad4_length, !pad2_length by done.
  done.
Qed.

Lemma strftime_inj t1 t2 :
  is_datetime t1 → is_datetime t2 → strftime t1 = strftime t2 →
  same_second t1 t2.
Proof.
  intros H1 H2 Heq.
  apply is_datetime_bounds in H1 as (Hy1 & Hmo1 & Hd1 & Hh1 & Hmi1 & Hs1).
  apply is_datetime_bounds in H2 as (Hy2 & Hmo2 & Hd2 & Hh2 & Hmi2 & Hs2).
  unfold strftime in Heq.
  apply append_inj_length in Heq as [Hy Heq];
    [|by rewrite !pad4_length].
  apply append_inj_length in Heq as [Hmo Heq]; [|by rewrite !pad2_length].
  apply append_inj_length in Heq as [Hd Heq]; [|by rewrite !pad2_length].
  apply append_inj_length in Heq as [Hh Heq]; [|by rewrite !pad2_length].
  apply append_inj_length in Heq as [Hmi Hs]; [|by rewrite !pad2_length].
  apply pad_inj in Hy, Hmo, Hd, Hh, Hmi, Hs. by repeat split.
Qed.

Lemma same_second_strftime t1 t2 :
  same_second t1 t2 → strftime t1 = strftime t2.
Proof.
  intros (Hy & Hmo & Hd & Hh & Hmi & Hs). unfold strftime.
  by rewrite Hy, Hmo, Hd, Hh, Hmi, Hs.
Qed.

Lemma numeral_append (a b : string) :
  is_Some (NilEmpty.uint_of_string a) → is_Some (NilEmpty.uint_of_string b) →
  is_Some (NilEmpty.uint_of_string (a +:+ b)).
Proof.
  intros Ha Hb. induction a as [|x a IH]; [done|].
  cbn [NilEmpty.uint_of_string] in Ha.
  change (String x a +:+ b) with (String x (a +:+ b)).
  cbn [NilEmpty.uint_of_string].
  destruct (NilEmpty.uint_of_string a) as [da|]; [|by destruct Ha].
  destruct (IH (ltac:(eauto))) as [dab ->].
  destruct Ha as [d Hd]. unfold uint_of_char in *.
  repeat match type of Hd with
         | match ?c with _ => _ end = _ => destruct c; try discriminate
         end; eauto.
Qed.

Lemma pad_numeral w n : is_Some (NilEmpty.uint_of_string (pad w n)).
Proof.
  pose proof (pad_read w n) as Hr. unfold read_decimal in Hr.
  destruct (NilEmpty.uint_of_string (pad w n)); [eauto|discriminate].
Qed.

(** X6: for a timestamp in range the order code is "NS-" followed by
    fourteen decimal digits, and two codes are equal exactly when the two
    clocks show the same second. *)
Theorem order_code_identifies_second (e1 e2 : env) :
  is_datetime (utcnow e1) → is_datetime (utcnow e2) →
  (∃ digits, generate_order_code e1 = "NS-" +:+ digits
             ∧ String.length digits = 14
             ∧ is_Some (NilEmpty.uint_of_string digits))
  ∧ (generate_order_code e1 = generate_order_code e2
     ↔ same_second (utcnow e1) (utcnow e2)).
Proof.
  intros H1 H2. unfold generate_order_code. split.
  { exists (strftime (utcnow e1)). split; [done|].
    split; [by apply strftime_length|].
    unfold strftime.
    do 5 (apply numeral_append; [apply pad_numeral|]). apply pad_numeral. }
  split.
  - intros Heq. apply strftime_inj; [done..|].
    by apply (append_inj_length "NS-" _ "NS-") in Heq as [_ Heq].
  - intros Hsame. by rewrite (same_second_strftime _ _ Hsame).
Qed.

(** ** What a request may change *)

Section FrameFacts.
Context `{Platform}.

Lemma extends_refl c db : extends_in c db db.
Proof.
  split; [done|]. split; [|done]. exists []. by rewrite app_nil_r.
Qed.

Lemma extends_trans c db1 db2 db3 :
  extends_in c db1 db2 → extends_in c db2 db3 → extends_in c db1 db3.
Proof.
  intros (Hf1 & [l1 Hl1] & Hn1) (Hf2 & [l2 Hl2] & Hn2).
  split; [|split].
  - intros c' Hc'. by rewrite Hf2, Hf1.
  - exists (l1 ++ l2). by rewrite Hl2, Hl1, app_assoc.
  - auto.
Qed.

Lemma extends_other c c' db db' :
  extends_in c db db' → c' ≠ c → coll db' c' = coll db c'.
Proof. intros (Hf & _) Hc'. unfold coll. by rewrite Hf. Qed.

Lemma extends_ids_unique c db db' :
  extends_in c db db' → ids_unique db → ids_unique db'.
Proof.
  intros Hext Hu name. destruct (decide (name = c)) as [->|Hne].
  - destruct Hext as (_ & _ & Hnd). apply Hnd, Hu.
  - rewrite (extends_other _ _ _ _ Hext Hne). apply Hu.
Qed.

Lemma insert_extends c o (data : dict) db :
  o ∉ (oid <$> coll db c) →
  extends_in c db (<[c := coll db c ++ [{| oid := o; fields := data |}]]> db).
Proof.
  intros Hfresh. split; [|split].
  - intros c' Hc'. by rewrite lookup_insert_ne.
  - exists [o]. by rewrite coll_insert_eq, fmap_app.
  - intros Hnd. rewrite coll_insert_eq, fmap_app. apply NoDup_app.
    split; [done|]. split; [|apply NoDup_singleton].
    intros x Hx Hin. apply list_elem_of_singleton in Hin. by subst.
Qed.

Lemma create_document_extends c o data db :
  extends_in c db (create_document c o data db).2.
Proof.
  unfold create_document, bind, insert_one.
  destruct (negb (encodable (VDict data))); [apply extends_refl|].
  case_bool_decide as Hin; simpl.
  - apply extends_refl.
  - by apply insert_extends.
Qed.

Lemma update_first_oids q set l : oid <$> update_first q set l = oid <$> l.
Proof.
  induction l as [|d l IH]; [done|]. cbn [update_first].
  destruct (matches q d); [done|]. by rewrite !fmap_cons, IH.
Qed.

Lemma update_extends c q set db :
  extends_in c db (<[c := update_first q set (coll db c)]> db).
Proof.
  split; [|split].
  - intros c' Hc'. by rewrite lookup_insert_ne.
  - exists []. by rewrite coll_insert_eq, update_first_oids, app_nil_r.
  - by rewrite coll_insert_eq, update_first_oids.
Qed.

Lemma insert_samples_extends e ps k db :
  extends_in "product" db (insert_samples e k ps db).2.
Proof.
  revert k db. induction ps as [|p ps IH]; intros k db; [apply extends_refl|].
  cbn [insert_samples]. unfold bind.
  pose proof (create_document_extends "product" (new_oid e k) (Product.dump p) db)
    as Hone.
  destruct (create_document _ _ _ db) as [[v|err] db1]; simpl in *; [|done].
  eapply extends_trans; [exact Hone|apply IH].
Qed.

Lemma seed_products_extends e db :
  extends_in "product" db (seed_products e db).2.
Proof.
  rewrite seed_products_unfold. case_bool_decide; [apply extends_refl|].
  pose proof (insert_samples_extends e samples 0 db) as Hext.
  by destruct (insert_samples e 0 samples db) as [[u|err] db'].
Qed.

Lemma create_order_extends e payload db :
  extends_in "order" db (create_order e payload db).2.
Proof.
  rewrite create_order_unfold.
  destruct (List.find _ _) as [d|]; [|apply extends_refl].
  destruct (multiplier_table !! _) as [m|]; [|apply extends_refl].
  destruct (py_float (default _ (fields d !! "price_monthly"))) as [b|];
    [|apply extends_refl].
  destruct (py_float (VInt m)) as [f|]; [|apply extends_refl].
  destruct (OrderSchema _ _ _ _ _ _ _ _ _ _ _) as [order|]; [|apply extends_refl].
  case_bool_decide; simpl; [apply extends_refl|by apply insert_extends].
Qed.

Lemma payment_notify_extends e payload db :
  extends_in "order" db (payment_notify e payload db).2.
Proof.
  rewrite payment_notify_unfold.
  destruct (List.find _ _); simpl; [apply update_extends|apply extends_refl].
Qed.

Lemma create_testimonial_extends e body db :
  extends_in "testimonial" db (create_testimonial e body db).2.
Proof.
  unfold create_testimonial, bind.
  pose proof (create_document_extends "testimonial" (new_oid e 0)
                (Testimonial.dump body) db) as Hext.
  by destruct (create_document _ _ _ db) as [[v|err] db'].
Qed.

Lemma create_contact_extends e body db :
  extends_in "contactmessage" db (create_contact e body db).2.
Proof.
  unfold create_contact, bind.
  pose proof (create_document_extends "contactmessage" (new_oid e 0)
                (ContactMessage.dump body) db) as Hext.
  by destruct (create_document _ _ _ db) as [[v|err] db'].
Qed.

(** A request leaves the store alone or extends the collection it writes. *)
Lemma serve_extends e r db :
  serve e r db = db
  ∨ ∃ c, written_collection r = Some c ∧ extends_in c db (serve e r db).
Proof.
  destruct r; simpl.
  - left. apply list_products_store.
  - left. rewrite get_product_unfold. by destruct (List.find _ _).
  - right. eexists. split; [done|apply seed_products_extends].
  - right. eexists. split; [done|apply create_order_extends].
  - left. apply get_order_unfold.
  - right. eexists. split; [done|apply payment_notify_extends].
  - right. eexists. split; [done|apply create_testimonial_extends].
  - right. eexists. split; [done|apply create_contact_extends].
Qed.

(** X14: a request changes no collection but the one it writes
    ([seed_products] "product", [create_order] and [payment_notify]
    "order", the two forms their own; the read endpoints none), and in every
    collection the identifiers stored before stay, in their order, with new
    ones only after them: nothing is ever deleted or re-identified. *)
Theorem requests_write_their_collection (e : env) (r : request) (db : database) :
  (∀ c, written_collection r ≠ Some c → serve e r db !! c = db !! c)
  ∧ (∀ c, ∃ l, oid <$> coll (serve e r db) c = (oid <$> coll db c) ++ l).
Proof.
  destruct (serve_extends e r db) as [->|(c0 & Hw & Hf & Hl & _)].
  { split; [done|]. intros c. exists []. by rewrite app_nil_r. }
  split.
  - intros c Hc. apply Hf. congruence.
  - intros c. destruct (decide (c = c0)) as [->|Hne]; [done|].
    exists []. unfold coll. by rewrite Hf, app_nil_r.
Qed.

Lemma serve_ids_unique e r db : ids_unique db → ids_unique (serve e r db).
Proof.
  intros Hu. destruct (serve_extends e r db) as [->|(c & _ & Hext)]; [done|].
  by apply (extends_ids_unique c db).
Qed.

Lemma run_ids_unique trace db : ids_unique db → ids_unique (run trace db).
Proof.
  revert db. induction trace as [|[e r] trace IH]; intros db Hu; [done|].
  simpl. by apply IH, serve_ids_unique.
Qed.

End FrameFacts.

(** ** Creating orders *)

Section CreateFacts.
Context `{Platform}.

Lemma OrderSchema_fields pid pname pkg price bn em wa pm st oc dc order :
  OrderSchema pid pname pkg price bn em wa pm st oc dc = Return order →
  (∃ n, pname = VStr n) ∧ is_Some (validate_email em)
  ∧ pkg ∈ packages ∧ (0 <=? price)%float = true
  ∧ pm ∈ Order.payment_methods ∧ dc ∈ Order.delivery_channels
  ∧ Order.package order = pkg ∧ Order.price order = price
  ∧ Order.payment_method order = pm ∧ Order.status order = st
  ∧ Order.order_code order = Some oc
  ∧ Order.delivered_payload order = None.
Proof.
  unfold OrderSchema. destruct pname; try discriminate.
  destruct (validate_email em) as [em'|]; [|discriminate].
  destruct (_ && _) eqn:Hchecks; [|discriminate].
  intros [= <-]. rewrite !andb_true_iff, !bool_decide_eq_true in Hchecks.
  destruct Hchecks as ((((? & ?) & ?) & ?) & ?). simpl. eauto 15.
Qed.

Lemma py_float_raises v err :
  py_float v = Raise err → err ∈ [OverflowError; ValueError; TypeError].
Proof.
  destruct v; simpl; try (intros [= <-]; set_solver).
  - destruct (float_of_int z); intros [= <-]. set_solver.
  - destruct (float_of_str s); intros [= <-]. set_solver.
Qed.

(** Everything a successful [create_order] tells. *)
Lemma create_order_inv e payload db resp db' :
  create_order e payload db = (Return resp, db') →
  ∃ d b f order,
    creatable e payload db d b f
    ∧ Order.package order = OrderCreate.package payload
    ∧ Order.price order = (b * f)%float
    ∧ Order.payment_method order = OrderCreate.payment_method payload
    ∧ Order.status order = "pending"
    ∧ Order.order_code order = Some (generate_order_code e)
    ∧ Order.delivered_payload order = None
    ∧ resp = order_response e payload d (b * f)%float
    ∧ db' = <["order" := coll db "order"
                ++ [{| oid := new_oid e 0; fields := Order.dump order |}]]> db.
Proof.
  rewrite create_order_unfold.
  destruct (List.find _ _) as [d|] eqn:Hfind; [|discriminate].
  destruct (multiplier_table !! _) as [m|] eqn:Hm; [|discriminate].
  destruct (py_float (default _ _)) as [b|] eqn:Hb; [|discriminate].
  apply multiplier_factor in Hm as (f & Hf & ->).
  destruct (OrderSchema _ _ _ _ _ _ _ _ _ _ _) as [order|] eqn:Ho; [|discriminate].
  case_bool_decide as Hfresh; [discriminate|].
  intros [= <- <-].
  apply OrderSchema_fields in Ho
    as ([n Hn] & Hem & _ & Hpos & Hpm & Hdc & Hpkg & Hprice & Hmeth & Hst & Hcode & Hpay).
  exists d, b, f, order. repeat split; try done.
  exists n. destruct (fields d !! "name"); simpl in Hn; by subst.
Qed.

(** X2: [create_order] succeeds exactly when the slug finds a product with
    a string name and a [price_monthly] that [float] accepts, the package is
    in the price table, the price is not negative, the email, the payment
    method and the delivery channel pass the Order schema, and the minted
    identifier is new to the order collection. *)
Theorem create_order_succeeds_iff (e : env) (payload : OrderCreate.t) (db : database) :
  (∃ resp db', create_order e payload db = (Return resp, db'))
  ↔ ∃ d b f, creatable e payload db d b f.
Proof.
  split.
  - intros (resp & db' & Hret).
    apply create_order_inv in Hret as (d & b & f & order & Hc & _). eauto.
  - intros (d & b & f & Hfind & Hf & Hpr & Hpos & Hacc & Hfresh).
    destruct (create_order_succeeds e payload db d b f)
      as (order & _ & _ & ->); eauto.
Qed.

Lemma create_order_raise_keeps e payload db err db' :
  create_order e payload db = (Raise err, db') → db' = db.
Proof.
  rewrite create_order_unfold.
  destruct (List.find _ _) as [d|]; [|by intros [= _ <-]].
  destruct (multiplier_table !! _) as [m|]; [|by intros [= _ <-]].
  destruct (py_float (default _ (fields d !! "price_monthly"))) as [b|];
    [|by intros [= _ <-]].
  destruct (py_float (VInt m)) as [f|]; [|by intros [= _ <-]].
  destruct (OrderSchema _ _ _ _ _ _ _ _ _ _ _) as [order|]; [|by intros [= _ <-]].
  case_bool_decide; [by intros [= _ <-]|discriminate].
Qed.

(** X3: [create_order] answers 404 "Product not found" exactly when no
    product matches the slug, whatever else is wrong with the request; and
    whenever it raises, the store is as it was. *)
Theorem create_order_failures (e : env) (payload : OrderCreate.t) (db : database) :
  (List.find (matches (by_slug (OrderCreate.product_slug payload)))
             (coll db "product") = None
   ↔ (create_order e payload db).1 = Raise (HTTPException 404 "Product not found"))
  ∧ (∀ err db', create_order e payload db = (Raise err, db') → db' = db).
Proof.
  rewrite create_order_unfold.
  destruct (List.find _ _) as [d|]; [|by split; [split|intros ?? [= _ <-]]].
  destruct (multiplier_table !! _) as [m|];
    [|by split; [split|intros ?? [= _ <-]]].
  destruct (py_float (default _ (fields d !! "price_monthly"))) as [b|err1] eqn:Hb.
  2:{ split; [|by intros ?? [= _ <-]]. split; [done|]. simpl. intros [= ->].
      apply py_float_raises in Hb. set_solver. }
  destruct (py_float (VInt m)) as [f|err2] eqn:Hf.
  2:{ split; [|by intros ?? [= _ <-]]. split; [done|]. simpl. intros [= ->].
      apply py_float_raises in Hf. set_solver. }
  destruct (OrderSchema _ _ _ _ _ _ _ _ _ _ _) as [order|err3] eqn:Ho.
  2:{ split; [|by intros ?? [= _ <-]]. split; [done|]. simpl. intros [= ->].
      unfold OrderSchema in Ho.
      repeat match type of Ho with
             | match ?x with _ => _ end = _ => destruct x
             | (if ?x then _ else _) = _ => destruct x
             end; discriminate. }
  case_bool_decide; (split; [split; discriminate|]).
  - by intros ?? [= _ <-].
  - intros ?? [=].
Qed.

(** X4: no successful [create_order] returns the fallback instruction
    "Follow admin instruction": the payment method of a created order is
    one of the three the table has, and the response carries its entry. *)
Theorem fallback_instruction_unused (e : env) (payload : OrderCreate.t)
    (db db' : database) (resp : dict) :
  create_order e payload db = (Return resp, db') →
  ∃ entry,
    instruction_table !! OrderCreate.payment_method payload = Some entry
    ∧ resp !! "payment" = Some (VDict entry)
    ∧ entry ≠ fallback_instruction
    ∧ resp !! "payment" ≠ Some (VDict fallback_instruction).
Proof.
  intros Hret.
  apply create_order_inv in Hret
    as (d & b & f & order & (_ & _ & _ & _ & (_ & Hpm & _) & _) & _ & _ & _ & _ & _ & _ & -> & _).
  rewrite response_payment.
  assert (Hentry : ∃ entry,
            instruction_table !! OrderCreate.payment_method payload = Some entry
            ∧ entry !! "type" ≠ Some (VStr "info")).
  { unfold Order.payment_methods in Hpm.
    apply elem_of_cons in Hpm as [->|Hpm]; [eexists; split; [reflexivity|done]|].
    apply elem_of_cons in Hpm as [->|Hpm]; [eexists; split; [reflexivity|done]|].
    apply list_elem_of_singleton in Hpm as ->. eexists; split; [reflexivity|done]. }
  destruct Hentry as (entry & Hentry & Htype).
  assert (Hne : entry ≠ fallback_instruction).
  { intros ->. by apply Htype. }
  exists entry. rewrite Hentry. simpl. repeat split; try done.
  intros [= Heq]. by apply Hne.
Qed.

End CreateFacts.

(** ** Looking orders up *)

Section LookupFacts.
Context `{Platform}.

Lemma find_app_Some {A} (f : A → bool) l l' x :
  List.find f l = Some x → List.find f (l ++ l') = Some x.
Proof.
  induction l as [|a l IH]; simpl; [done|]. by destruct (f a).
Qed.

Lemma find_app_None {A} (f : A → bool) l l' :
  List.find f l = None → List.find f (l ++ l') = List.find f l'.
Proof.
  induction l as [|a l IH]; simpl; [done|]. by destruct (f a).
Qed.

(** Replacing the first match by another match makes that one the first. *)
Lemma find_insert_first {A} (f : A → bool) l i x x' :
  l !! i = Some x →
  (∀ j y, j < i → l !! j = Some y → f y = false) →
  f x' = true →
  List.find f (<[i := x']> l) = Some x'.
Proof.
  revert i. induction l as [|a l IH]; intros i Hi Hmin Hfx'; [done|].
  destruct i as [|i]; simpl.
  - by rewrite Hfx'.
  - rewrite (Hmin 0 a) by (done || lia). apply IH; [done| |done].
    intros j y Hj Hy. apply (Hmin (S j) y); [lia|done].
Qed.

Lemma get_order_result code db :
  get_order code db
  = match List.find (matches (by_order_code code)) (coll db "order") with
    | Some o => (Return (to_dict (as_dict o)), db)
    | None => (Raise (HTTPException 404 "Order not found"), db)
    end.
Proof.
  unfold get_order, bind. rewrite find_one_equals. fold (by_order_code code).
  destruct (List.find _ _) as [o|]; [|done].
  cbn [fmap option_fmap option_map]. by rewrite truthy_as_dict.
Qed.

Lemma matches_order_code code d :
  matches (by_order_code code) d = eq_match (QStr code) (fields d !! "order_code").
Proof. apply matches_field_equals. Qed.

Lemma matches_order_code_str code c d :
  fields d !! "order_code" = Some (VStr c) →
  matches (by_order_code code) d = bool_decide (code = c).
Proof. intros Hc. by rewrite matches_order_code, Hc. Qed.

(** X13: in an order collection with scalar [order_code] fields,
    [get_order] returns a stored order with that code, with its [_id] as a
    string and every other field as stored, exactly when one exists;
    otherwise it raises 404 "Order not found"; the store is never
    changed. *)
Theorem get_order_spec (code : string) (db : database) :
  scalars ["order_code"] (coll db "order") = true →
  (get_order code db).2 = db
  ∧ ((∃ o, o ∈ coll db "order" ∧ fields o !! "order_code" = Some (VStr code))
     ↔ ∃ r, (get_order code db).1 = Return r)
  ∧ (∀ r, (get_order code db).1 = Return r →
       ∃ o, o ∈ coll db "order"
            ∧ fields o !! "order_code" = Some (VStr code)
            ∧ r !! "_id" = Some (VStr (py_str (VOid (oid o))))
            ∧ ∀ k, k ≠ "_id" → r !! k = fields o !! k)
  ∧ ((¬ ∃ o, o ∈ coll db "order" ∧ fields o !! "order_code" = Some (VStr code)) →
       (get_order code db).1 = Raise (HTTPException 404 "Order not found")).
Proof.
  intros Hsc. rewrite get_order_result.
  assert (Hm : ∀ o, o ∈ coll db "order" →
            matches (by_order_code code) o = true
            ↔ fields o !! "order_code" = Some (VStr code)).
  { intros o Ho. rewrite matches_order_code. apply (eq_match_scalar (QStr code)).
    apply (scalars_elem _ _ _ _ Hsc Ho). left. }
  destruct (List.find _ _) as [o|] eqn:Hfind; simpl.
  - destruct (find_Some_first _ _ _ Hfind) as (i & Hi & Hmo & _).
    apply list_elem_of_lookup_2 in Hi. apply Hm in Hmo; [|done].
    split; [done|]. split; [split; eauto|]. split.
    + intros r [= <-]. exists o. rewrite to_dict_as_dict.
      split; [done|]. split; [done|]. split; [by rewrite lookup_insert_eq|].
      intros k Hk. by rewrite lookup_insert_ne.
    + intros Hno. exfalso. apply Hno. eauto.
  - rewrite find_None_all in Hfind. split; [done|]. split.
    + split; [|intros [r Hr]; discriminate].
      intros (o & Ho & Hc). apply Hm in Hc; [|done].
      rewrite (Hfind o Ho) in Hc. discriminate.
    + split; [intros r Hr; discriminate|done].
Qed.

Lemma dump_order_code order :
  Order.dump order !! "order_code" = Some (of_option VStr (Order.order_code order)).
Proof. reflexivity. Qed.

Lemma dump_package order :
  Order.dump order !! "package" = Some (VStr (Order.package order)).
Proof. reflexivity. Qed.

Lemma dump_payment_method order :
  Order.dump order !! "payment_method" = Some (VStr (Order.payment_method order)).
Proof. reflexivity. Qed.

Lemma dump_delivered_payload order :
  Order.dump order !! "delivered_payload"
  = Some (of_option VDict (Order.delivered_payload order)).
Proof. reflexivity. Qed.

(** The document of a created order, field by field. *)
Lemma create_order_document e payload db resp db' :
  create_order e payload db = (Return resp, db') →
  ∃ d b f o,
    creatable e payload db d b f
    ∧ resp = order_response e payload d (b * f)%float
    ∧ db' = <["order" := coll db "order" ++ [o]]> db
    ∧ oid o = new_oid e 0
    ∧ fields o !! "order_code" = Some (VStr (generate_order_code e))
    ∧ fields o !! "price" = Some (VFloat (b * f)%float)
    ∧ fields o !! "package" = Some (VStr (OrderCreate.package payload))
    ∧ fields o !! "payment_method" = Some (VStr (OrderCreate.payment_method payload))
    ∧ fields o !! "status" = Some (VStr "pending")
    ∧ fields o !! "delivered_payload" = Some VNone.
Proof.
  intros Hret. apply create_order_inv in Hret
    as (d & b & f & order & Hc & Hpkg & Hprice & Hpm & Hst & Hcode & Hpay & -> & ->).
  exists d, b, f, {| oid := new_oid e 0; fields := Order.dump order |}. simpl.
  rewrite dump_order_code, dump_price, dump_package, dump_payment_method,
    dump_status, dump_delivered_payload, Hpkg, Hprice, Hpm, Hst, Hcode, Hpay.
  split; [exact Hc|]. by repeat split.
Qed.

Lemma response_fields e payload d price :
  order_response e payload d price !! "order_id"
    = Some (VStr (py_str (VOid (new_oid e 0))))
  ∧ order_response e payload d price !! "order_code"
    = Some (VStr (generate_order_code e))
  ∧ order_response e payload d price !! "package"
    = Some (VStr (OrderCreate.package payload)).
Proof. by repeat split. Qed.

(** X8: after a successful [create_order] on a store where no order has the
    new code yet, [get_order] with the returned code answers with the order
    just stored: the same identifier, code, package and status "pending",
    and the price that was returned as [amount]. *)
Theorem created_order_is_found (e : env) (payload : OrderCreate.t)
    (db db' : database) (resp : dict) :
  create_order e payload db = (Return resp, db') →
  List.find (matches (by_order_code (generate_order_code e)))
            (coll db "order") = None →
  resp !! "order_code" = Some (VStr (generate_order_code e))
  ∧ ∃ r, get_order (generate_order_code e) db' = (Return r, db')
         ∧ r !! "_id" = resp !! "order_id"
         ∧ r !! "order_code" = resp !! "order_code"
         ∧ r !! "price" = resp !! "amount"
         ∧ r !! "package" = resp !! "package"
         ∧ r !! "status" = resp !! "status"
         ∧ r !! "status" = Some (VStr "pending").
Proof.
  intros Hret Hnone.
  apply create_order_document in Hret
    as (d & b & f & o & _ & -> & -> & Hoid & Hcode & Hprice & Hpkg & _ & Hst & _).
  destruct (response_fields e payload d (b * f)%float) as (Hrid & Hrcode & Hrpkg).
  split; [done|].
  rewrite get_order_result, coll_insert_eq, (find_app_None _ _ _ Hnone).
  cbn [List.find]. rewrite (matches_order_code_str _ _ _ Hcode).
  rewrite bool_decide_eq_true_2 by done.
  eexists. split; [reflexivity|].
  rewrite Hrid, Hrcode, Hrpkg, response_amount, response_status, to_dict_as_dict.
  rewrite lookup_insert_eq, !lookup_insert_ne by done.
  rewrite Hoid, Hcode, Hprice, Hpkg, Hst. by repeat split.
Qed.

End LookupFacts.

(** ** Notifications after orders *)

Section FlowFacts.
Context `{Platform}.

(** A notification for a found order rewrites the first match, in place. *)
Lemma payment_notify_at e payload db o :
  NoDup (oid <$> coll db "order") →
  List.find (matches (by_order_code (PaymentNotify.order_code payload)))
            (coll db "order") = Some o →
  ∃ i, coll db "order" !! i = Some o
       ∧ (∀ j y, j < i → coll db "order" !! j = Some y →
                 matches (by_order_code (PaymentNotify.order_code payload)) y = false)
       ∧ payment_notify e payload db
         = (Return (notify_response payload),
            <["order" := <[i := apply_set (notify_set e payload) o]>
                           (coll db "order")]> db).
Proof.
  intros Hnd Hfind. rewrite payment_notify_unfold, Hfind.
  destruct (find_Some_first _ _ _ Hfind) as (i & Hi & _ & Hmin).
  exists i. split; [done|]. split; [done|]. by rewrite (update_first_id _ _ i).
Qed.

Lemma apply_set_field set d k :
  set !! k = None → fields (apply_set set d) !! k = fields d !! k.
Proof. intros Hk. simpl. by apply lookup_union_r. Qed.

Lemma notify_set_keeps e payload k :
  k ∉ ["status"; "delivered_payload"; "updated_at"] →
  ∀ d, fields (apply_set (notify_set e payload) d) !! k = fields d !! k.
Proof. intros Hk d. by apply apply_set_field, notify_set_other. Qed.

Lemma notified_still_matches e payload code d :
  matches (by_order_code code) (apply_set (notify_set e payload) d)
  = matches (by_order_code code) d.
Proof.
  rewrite !matches_order_code, notify_set_keeps; [done|set_solver].
Qed.

Lemma notify_set_dom e1 e2 payload :
  dom (notify_set e1 payload) = dom (notify_set e2 payload).
Proof.
  unfold notify_set. case_bool_decide;
    by rewrite !dom_insert_L, !dom_singleton_L.
Qed.

Lemma apply_set_twice e1 e2 payload d :
  apply_set (notify_set e2 payload) (apply_set (notify_set e1 payload) d)
  = apply_set (notify_set e2 payload) d.
Proof.
  unfold apply_set. simpl. f_equal. apply map_eq. intros k.
  destruct (notify_set e2 payload !! k) as [v|] eqn:Hk.
  - by rewrite !(lookup_union_Some_l _ _ _ _ Hk).
  - rewrite !(lookup_union_r _ _ _ Hk). apply lookup_union_r.
    apply not_elem_of_dom. rewrite (notify_set_dom e1 e2).
    by apply not_elem_of_dom.
Qed.

Lemma insert_oids (l : list document) i d d' :
  l !! i = Some d → oid d' = oid d → oid <$> <[i := d']> l = oid <$> l.
Proof.
  intros Hi Hoid. rewrite list_fmap_insert, Hoid.
  apply list_insert_id. by rewrite list_lookup_fmap, Hi.
Qed.

(** X10: a notification that is delivered again has the response and the
    effect of its last delivery alone. *)
Theorem repeated_notification (e1 e2 : env) (payload : PaymentNotify.t)
    (db : database) :
  NoDup (oid <$> coll db "order") →
  payment_notify e2 payload (payment_notify e1 payload db).2
  = payment_notify e2 payload db.
Proof.
  intros Hnd.
  destruct (List.find (matches (by_order_code (PaymentNotify.order_code payload)))
              (coll db "order")) as [o|] eqn:Hfind.
  2:{ by rewrite (payment_notify_unfold e1), Hfind. }
  destruct (payment_notify_at e1 payload db o Hnd Hfind) as (i & Hi & Hmin & ->).
  destruct (payment_notify_at e2 payload db o Hnd Hfind) as (i' & Hi' & Hmin' & ->).
  assert (i' = i) as ->.
  { apply (NoDup_lookup (oid <$> coll db "order") i' i (oid o)); [done|..];
      by rewrite list_lookup_fmap, ?Hi, ?Hi'. }
  cbn [snd]. set (o1 := apply_set (notify_set e1 payload) o).
  set (db1 := <["order" := _]> db).
  assert (Hcoll1 : coll db1 "order" = <[i := o1]> (coll db "order")).
  { unfold db1. by rewrite coll_insert_eq. }
  assert (Hnd1 : NoDup (oid <$> coll db1 "order")).
  { rewrite Hcoll1, (insert_oids _ i o); done. }
  assert (Hfind1 : List.find (matches (by_order_code (PaymentNotify.order_code payload)))
                     (coll db1 "order") = Some o1).
  { rewrite Hcoll1. apply (find_insert_first _ _ i o); [done..|].
    unfold o1. rewrite notified_still_matches.
    by destruct (find_Some_first _ _ _ Hfind) as (? & ? & ? & ?). }
  destruct (payment_notify_at e2 payload db1 o1 Hnd1 Hfind1) as (i1 & Hi1 & _ & ->).
  assert (i1 = i) as ->.
  { apply (NoDup_lookup (oid <$> coll db1 "order") i1 i (oid o1)); [done|..].
    - by rewrite list_lookup_fmap, Hi1.
    - rewrite list_lookup_fmap, Hcoll1, list_lookup_insert_eq; [done|].
      by apply lookup_lt_Some in Hi. }
  f_equal. unfold o1. rewrite apply_set_twice, Hcoll1, list_insert_insert_eq.
  unfold db1. by rewrite insert_insert_eq.
Qed.

(** X11: a notification with another status that follows a "paid" one for
    the same order marks the order "failed" and answers without credentials,
    but the credentials delivered before stay stored on the order. *)
Theorem late_failure_keeps_credentials (e1 e2 : env) (code s : string)
    (db : database) (o : document) :
  NoDup (oid <$> coll db "order") →
  List.find (matches (by_order_code code)) (coll db "order") = Some o →
  s ≠ "paid" →
  ∃ resp db2 i o2,
    payment_notify e2 (notification code s)
      (payment_notify e1 (notification code "paid") db).2 = (Return resp, db2)
    ∧ resp !! "status" = Some (VStr "failed")
    ∧ resp !! "delivered_payload" = None
    ∧ coll db2 "order" !! i = Some o2
    ∧ oid o2 = oid o
    ∧ fields o2 !! "status" = Some (VStr "failed")
    ∧ fields o2 !! "delivered_payload" = Some (VDict (credentials code)).
Proof.
  intros Hnd Hfind Hs.
  destruct (payment_notify_at e1 (notification code "paid") db o Hnd Hfind)
    as (i & Hi & Hmin & ->).
  cbn [snd]. set (o1 := apply_set (notify_set e1 (notification code "paid")) o).
  set (db1 := <["order" := _]> db).
  assert (Hcoll1 : coll db1 "order" = <[i := o1]> (coll db "order")).
  { unfold db1. by rewrite coll_insert_eq. }
  assert (Hnd1 : NoDup (oid <$> coll db1 "order")).
  { rewrite Hcoll1, (insert_oids _ i o); done. }
  assert (Hfind1 : List.find (matches (by_order_code code)) (coll db1 "order")
                   = Some o1).
  { rewrite Hcoll1. apply (find_insert_first _ _ i o); [done..|].
    unfold o1. rewrite notified_still_matches.
    by destruct (find_Some_first _ _ _ Hfind) as (? & ? & ? & ?). }
  destruct (payment_notify_at e2 (notification code s) db1 o1 Hnd1 Hfind1)
    as (i1 & Hi1 & _ & ->).
  eexists _, _, i1, (apply_set (notify_set e2 (notification code s)) o1).
  split; [reflexivity|]. rewrite coll_insert_eq.
  assert (Hfailed : notify_set e2 (notification code s)
                    = {[ "status" := VStr "failed";
                         "updated_at" := VDate (to_millis (utcnow e2)) ]}).
  { unfold notify_set. simpl. by rewrite bool_decide_eq_false_2. }
  split; [|split; [|split; [|split; [done|split]]]].
  - unfold notify_response. simpl. by rewrite bool_decide_eq_false_2.
  - unfold notify_response. simpl. by rewrite bool_decide_eq_false_2.
  - apply list_lookup_insert_eq. by apply lookup_lt_Some in Hi1.
  - simpl. rewrite Hfailed. by apply lookup_union_Some_l.
  - rewrite apply_set_field by (by rewrite Hfailed).
    unfold o1, notify_set. simpl. by apply lookup_union_Some_l.
Qed.

Lemma created_order_first e payload db resp db' :
  NoDup (oid <$> coll db "order") →
  create_order e payload db = (Return resp, db') →
  ∃ d b f o,
    resp = order_response e payload d (b * f)%float
    ∧ coll db' "order" = coll db "order" ++ [o]
    ∧ (∀ c, c ≠ "order" → db' !! c = db !! c)
    ∧ NoDup (oid <$> coll db' "order")
    ∧ oid o = new_oid e 0
    ∧ fields o !! "order_code" = Some (VStr (generate_order_code e))
    ∧ fields o !! "price" = Some (VFloat (b * f)%float)
    ∧ fields o !! "status" = Some (VStr "pending")
    ∧ matches (by_order_code (generate_order_code e)) o = true.
Proof.
  intros Hnd Hret.
  pose proof (create_order_extends e payload db) as (Hframe & _ & Hnd').
  rewrite Hret in Hframe, Hnd'. simpl in Hframe, Hnd'.
  apply create_order_document in Hret
    as (d & b & f & o & _ & -> & -> & Hoid & Hcode & Hprice & _ & _ & Hst & _).
  exists d, b, f, o. rewrite coll_insert_eq in *.
  repeat split; try done; [by apply Hnd'|].
  rewrite (matches_order_code_str _ _ _ Hcode). by apply bool_decide_eq_true_2.
Qed.

(** X9: an order created on a store with distinct order identifiers and no
    order of the same code, then notified as "paid", is answered by
    [get_order] as "delivered", with the credentials of its code, the ones
    the notification returned, with the time of the notification truncated
    to milliseconds as [updated_at], and with the identifier and the price
    [create_order] returned. *)
Theorem paid_order_is_delivered (e e2 : env) (payload : OrderCreate.t)
    (db db' : database) (resp : dict) :
  NoDup (oid <$> coll db "order") →
  create_order e payload db = (Return resp, db') →
  List.find (matches (by_order_code (generate_order_code e)))
            (coll db "order") = None →
  ∃ resp2 db'' r,
    payment_notify e2 (notification (generate_order_code e) "paid") db'
    = (Return resp2, db'')
    ∧ resp2 !! "status" = Some (VStr "delivered")
    ∧ get_order (generate_order_code e) db'' = (Return r, db'')
    ∧ r !! "status" = Some (VStr "delivered")
    ∧ r !! "delivered_payload"
      = Some (VDict (credentials (generate_order_code e)))
    ∧ r !! "delivered_payload" = resp2 !! "delivered_payload"
    ∧ r !! "updated_at" = Some (VDate (to_millis (utcnow e2)))
    ∧ r !! "price" = resp !! "amount"
    ∧ r !! "_id" = resp !! "order_id".
Proof.
  intros Hnd Hret Hnone.
  destruct (created_order_first e payload db resp db' Hnd Hret)
    as (d & b & f & o & -> & Hcoll & _ & Hnd' & Hoid & Hcode & Hprice & Hst & Hmo).
  set (code := generate_order_code e) in *.
  assert (Hfind : List.find (matches (by_order_code code)) (coll db' "order") = Some o).
  { rewrite Hcoll, (find_app_None _ _ _ Hnone). cbn [List.find]. by rewrite Hmo. }
  destruct (payment_notify_at e2 (notification code "paid") db' o Hnd' Hfind)
    as (i & Hi & Hmin & ->).
  set (o' := apply_set (notify_set e2 (notification code "paid")) o).
  eexists _, _, (to_dict (as_dict o')). split; [reflexivity|].
  split; [done|]. split.
  { rewrite get_order_result, coll_insert_eq.
    rewrite (find_insert_first _ _ i o o'); [done..|].
    unfold o'. by rewrite notified_still_matches. }
  rewrite to_dict_as_dict, response_amount.
  rewrite !lookup_insert_ne, lookup_insert_eq by done.
  assert (Hset : notify_set e2 (notification code "paid")
                 = {[ "status" := VStr "delivered";
                      "delivered_payload" := VDict (credentials code);
                      "updated_at" := VDate (to_millis (utcnow e2)) ]}) by done.
  unfold o'. cbn [fields apply_set oid]. rewrite Hset.
  split; [by apply lookup_union_Some_l|].
  split; [by apply lookup_union_Some_l|].
  split; [by apply lookup_union_Some_l|].
  split; [by apply lookup_union_Some_l|].
  split; [by rewrite lookup_union_r|].
  by rewrite Hoid.
Qed.

(** Shadowing depends on the order collection alone. *)
Lemma shadowed_same code j o2 db db' :
  coll db' "order" = coll db "order" →
  shadowed code j o2 db → shadowed code j o2 db'.
Proof. unfold shadowed. by intros ->. Qed.

(** A further order goes after the shadowed one. *)
Lemma shadowed_create e payload code j o2 db :
  shadowed code j o2 db → shadowed code j o2 (create_order e payload db).2.
Proof.
  intros (Hnd & Hj & k & o & Hk & Hok & Hmo).
  destruct (create_order e payload db) as [[resp|err] db'] eqn:Hret; cbn [snd].
  - destruct (created_order_first e payload db resp db' Hnd Hret)
      as (d & b & f & o' & _ & Hcoll & _ & Hnd' & _).
    split; [done|]. rewrite Hcoll.
    split; [by apply lookup_app_l_Some|].
    exists k, o. split; [done|]. split; [by apply lookup_app_l_Some|done].
  - apply create_order_raise_keeps in Hret as ->. split; [done|]. eauto 10.
Qed.

(** A notification rewrites the first order of its code, which is never the
    shadowed one, and the rewritten order keeps its code. *)
Lemma shadowed_notify e payload code j o2 db :
  fields o2 !! "order_code" = Some (VStr code) →
  shadowed code j o2 db → shadowed code j o2 (payment_notify e payload db).2.
Proof.
  intros Hcode (Hnd & Hj & k & o & Hk & Hok & Hmo).
  rewrite payment_notify_unfold.
  destruct (List.find _ _) as [o'|] eqn:Hfind; cbn [snd];
    [|split; [done|]; eauto 10].
  destruct (find_Some_first _ _ _ Hfind) as (i & Hi & Hmi & Hmin).
  rewrite (update_first_id _ _ i) by done.
  assert (Hij : i ≠ j).
  { intros ->. assert (o' = o2) as -> by congruence.
    rewrite (matches_order_code_str _ _ _ Hcode) in Hmi.
    apply bool_decide_eq_true in Hmi. rewrite Hmi in Hmin.
    rewrite (Hmin k o Hk Hok) in Hmo. discriminate. }
  unfold shadowed. rewrite coll_insert_eq.
  split; [by rewrite (insert_oids _ i o')|].
  split; [by rewrite list_lookup_insert_ne|].
  destruct (decide (i = k)) as [->|Hik].
  - assert (o' = o) as -> by congruence.
    exists k, (apply_set (notify_set e payload) o). split; [done|].
    split; [apply list_lookup_insert_eq; by apply lookup_lt_Some in Hok|].
    by rewrite notified_still_matches.
  - exists k, o. by rewrite list_lookup_insert_ne.
Qed.

Lemma serve_shadowed e r code j o2 db :
  fields o2 !! "order_code" = Some (VStr code) →
  shadowed code j o2 db → shadowed code j o2 (serve e r db).
Proof.
  intros Hcode Hsh. destruct r; simpl.
  - by rewrite list_products_store.
  - rewrite get_product_unfold. by destruct (List.find _ _).
  - apply (shadowed_same _ _ _ db); [|done].
    by apply (extends_other _ _ _ _ (seed_products_extends e db)).
  - by apply shadowed_create.
  - by rewrite get_order_unfold.
  - by apply shadowed_notify.
  - apply (shadowed_same _ _ _ db); [|done].
    by apply (extends_other _ _ _ _ (create_testimonial_extends e body db)).
  - apply (shadowed_same _ _ _ db); [|done].
    by apply (extends_other _ _ _ _ (create_contact_extends e body db)).
Qed.

Lemma run_shadowed trace code j o2 db :
  fields o2 !! "order_code" = Some (VStr code) →
  shadowed code j o2 db → shadowed code j o2 (run trace db).
Proof.
  intros Hcode. revert db.
  induction trace as [|[e r] trace IH]; intros db Hsh; [done|].
  simpl. by apply IH, serve_shadowed.
Qed.

(** [get_order] for the code answers with an order stored before the
    shadowed one. *)
Lemma shadowed_get_order code j o2 db :
  shadowed code j o2 db →
  ∃ k o, k < j ∧ coll db "order" !! k = Some o ∧ oid o ≠ oid o2
         ∧ get_order code db = (Return (to_dict (as_dict o)), db).
Proof.
  intros (Hnd & Hj & k & o & Hk & Hok & Hmo). rewrite get_order_result.
  destruct (List.find _ _) as [o'|] eqn:Hfind.
  2:{ rewrite find_None_all in Hfind. rewrite (Hfind o) in Hmo; [done|].
      by apply list_elem_of_lookup_2 in Hok. }
  destruct (find_Some_first _ _ _ Hfind) as (i & Hi & _ & Hmin).
  assert (Hik : i ≤ k).
  { destruct (decide (i ≤ k)) as [|Hgt]; [done|].
    rewrite (Hmin k o) in Hmo; [done|lia|done]. }
  exists i, o'. split; [lia|]. split; [done|]. split; [|done].
  intros Hoid.
  assert (i = j); [|lia].
  apply (NoDup_lookup (oid <$> coll db "order") i j (oid o')); [done|..].
  - by rewrite list_lookup_fmap, Hi.
  - by rewrite list_lookup_fmap, Hj, Hoid.
Qed.

(** X7: two orders created in the same second get the same order code, and
    the second one is out of reach from then on: after any further requests
    it is stored as it was created, with status "pending", while
    [get_order] for its code answers with another order, stored before it,
    the only one a notification for the code can change. *)
Theorem same_second_orders (e1 e2 : env) (p1 p2 : OrderCreate.t)
    (db db1 db2 : database) (r1 r2 : dict) :
  NoDup (oid <$> coll db "order") →
  create_order e1 p1 db = (Return r1, db1) →
  create_order e2 p2 db1 = (Return r2, db2) →
  same_second (utcnow e1) (utcnow e2) →
  r1 !! "order_code" = r2 !! "order_code"
  ∧ r2 !! "order_code" = Some (VStr (generate_order_code e2))
  ∧ ∃ j o2,
      j = length (coll db1 "order")
      ∧ coll db2 "order" !! j = Some o2
      ∧ oid o2 = new_oid e2 0
      ∧ fields o2 !! "order_code" = r2 !! "order_code"
      ∧ fields o2 !! "status" = Some (VStr "pending")
      ∧ ∀ trace,
          coll (run trace db2) "order" !! j = Some o2
          ∧ ∃ k o,
              k < j
              ∧ coll (run trace db2) "order" !! k = Some o
              ∧ oid o ≠ oid o2
              ∧ get_order (generate_order_code e2) (run trace db2)
                = (Return (to_dict (as_dict o)), run trace db2).
Proof.
  intros Hnd Hr1 Hr2 Hclock.
  destruct (created_order_first e1 p1 db r1 db1 Hnd Hr1)
    as (d1 & b1 & f1 & o1 & -> & Hcoll1 & _ & Hnd1 & _ & _ & _ & _ & Hmo1).
  destruct (created_order_first e2 p2 db1 r2 db2 Hnd1 Hr2)
    as (d2 & b2 & f2 & o2 & -> & Hcoll2 & _ & Hnd2 & Hoid2 & Hcode2 & _ & Hst2 & _).
  assert (Hcodes : generate_order_code e1 = generate_order_code e2).
  { unfold generate_order_code. by rewrite (same_second_strftime _ _ Hclock). }
  rewrite Hcodes in Hmo1. set (code := generate_order_code e2) in *.
  destruct (response_fields e1 p1 d1 (b1 * f1)%float) as (_ & Hc1 & _).
  destruct (response_fields e2 p2 d2 (b2 * f2)%float) as (_ & Hc2 & _).
  split; [by rewrite Hc1, Hc2, Hcodes|]. split; [done|].
  exists (length (coll db1 "order")), o2. split; [done|].
  assert (Hj : coll db2 "order" !! length (coll db1 "order") = Some o2).
  { rewrite Hcoll2. apply list_lookup_middle. done. }
  split; [done|]. split; [done|]. split; [by rewrite Hc2|]. split; [done|].
  assert (Hsh : shadowed code (length (coll db1 "order")) o2 db2).
  { split; [done|]. split; [done|].
    exists (length (coll db "order")), o1.
    split; [rewrite Hcoll1, length_app; simpl; lia|].
    split; [|done]. rewrite Hcoll2, Hcoll1, <- app_assoc.
    by apply list_lookup_middle. }
  intros trace. apply (run_shadowed trace) in Hsh; [|done].
  split; [by destruct Hsh as (_ & ? & _)|].
  by apply shadowed_get_order.
Qed.

End FlowFacts.

(** ** The store the API keeps *)

Section KeptFacts.
Context `{Platform}.

Lemma created_order_kept e payload db resp db' o :
  create_order e payload db = (Return resp, db') →
  o ∈ coll db' "order" → o ∈ coll db "order" ∨ order_kept o.
Proof.
  intros Hret Ho.
  apply create_order_document in Hret
    as (d & b & f & o' & (_ & Hf & _ & Hpos & (_ & Hpm & _) & _) & _ & -> & _
        & Hcode & Hprice & Hpkg & Hmeth & Hst & _).
  rewrite coll_insert_eq, elem_of_app in Ho. destruct Ho as [Ho|Ho]; [by left|].
  apply list_elem_of_singleton in Ho as ->. right.
  split; [eauto|]. split; [eauto|]. split.
  { eexists. split; [exact Hpkg|]. by apply (list_elem_of_fmap_2 fst) in Hf. }
  split; [eauto|]. split.
  { exists "pending". split; [done|]. unfold written_statuses. set_solver. }
  rewrite Hst. discriminate.
Qed.

Lemma notified_order_kept e payload o :
  order_kept o →
  matches (by_order_code (PaymentNotify.order_code payload)) o = true →
  order_kept (apply_set (notify_set e payload) o).
Proof.
  intros ([e0 Hcode] & Hprice & Hpkg & Hmeth & _ & _) Hm.
  assert (Hkeep := notify_set_keeps e payload).
  split; [exists e0; by rewrite Hkeep by set_solver|].
  split; [by rewrite Hkeep by set_solver|].
  split; [by rewrite Hkeep by set_solver|].
  split; [by rewrite Hkeep by set_solver|].
  assert (Hst : fields (apply_set (notify_set e payload) o) !! "status"
                = Some (VStr (stored_status (PaymentNotify.status payload)))).
  { simpl. apply lookup_union_Some_l, notify_set_status. }
  split; [eexists; split; [exact Hst|apply stored_status_written]|].
  rewrite Hst. unfold stored_status. case_bool_decide as Hpaid; [|discriminate].
  intros _. exists (generate_order_code e0).
  split; [by rewrite Hkeep by set_solver|].
  rewrite (matches_order_code_str _ _ _ Hcode) in Hm.
  apply bool_decide_eq_true in Hm. rewrite <- Hm.
  unfold notify_set. rewrite (bool_decide_eq_true_2 _ Hpaid). simpl.
  by apply lookup_union_Some_l.
Qed.

Lemma serve_kept e r db : store_kept db → store_kept (serve e r db).
Proof.
  intros [Hu Hk]. split; [by apply serve_ids_unique|].
  intros d Hd. destruct r; simpl in Hd.
  - rewrite list_products_store in Hd. auto.
  - rewrite get_product_unfold in Hd. destruct (List.find _ _); auto.
  - rewrite (extends_other _ _ _ _ (seed_products_extends e db)) in Hd by done.
    auto.
  - destruct (create_order e payload db) as [[resp|err] db'] eqn:Hrun.
    + destruct (created_order_kept e payload db resp db' d Hrun Hd); auto.
    + rewrite (create_order_raise_keeps _ _ _ _ _ Hrun) in Hd. auto.
  - rewrite get_order_unfold in Hd. auto.
  - destruct (List.find (matches (by_order_code (PaymentNotify.order_code payload)))
                (coll db "order")) as [o|] eqn:Hfind.
    + destruct (payment_notify_at e payload db o (Hu "order") Hfind)
        as (i & Hi & _ & Heq).
      rewrite Heq in Hd. cbn [snd] in Hd. rewrite coll_insert_eq in Hd.
      apply list_elem_of_lookup_1 in Hd as [j Hj].
      destruct (decide (j = i)) as [->|Hne].
      * rewrite list_lookup_insert_eq in Hj by (by apply lookup_lt_Some in Hi).
        injection Hj as <-. apply notified_order_kept.
        -- apply Hk. by apply list_elem_of_lookup_2 in Hi.
        -- by destruct (find_Some_first _ _ _ Hfind) as (? & ? & ? & ?).
      * rewrite list_lookup_insert_ne in Hj by done.
        apply Hk. by apply list_elem_of_lookup_2 in Hj.
    + rewrite payment_notify_unfold, Hfind in Hd. auto.
  - rewrite (extends_other _ _ _ _ (create_testimonial_extends e body db)) in Hd
      by done. auto.
  - rewrite (extends_other _ _ _ _ (create_contact_extends e body db)) in Hd
      by done. auto.
Qed.

(** X5: every request keeps the store such that identifiers are distinct
    and every order has a code of the generator, a price that is not
    negative (and not NaN), a package of the price table, a payment method
    and a written status of the schema, and, when it is "delivered", the
    credentials of its own code; so every store the API reaches from the
    empty one is such a store. *)
Theorem orders_stay_well_formed :
  (∀ e r db, store_kept db → store_kept (serve e r db))
  ∧ (∀ trace, store_kept (run trace ∅)).
Proof.
  split; [apply serve_kept|].
  assert (Hrun : ∀ trace db, store_kept db → store_kept (run trace db)).
  { induction trace as [|[e r] trace IH]; intros db Hk; [done|].
    simpl. by apply IH, serve_kept. }
  intros trace. apply Hrun. split.
  - intros name. unfold coll. rewrite lookup_empty. apply NoDup_nil_2.
  - intros d Hd. unfold coll in Hd. rewrite lookup_empty in Hd.
    by apply elem_of_nil in Hd.
Qed.

End KeptFacts.

(** ** Listing products, nothing left out *)

Section ListingFacts.
Context `{Platform}.

Lemma eq_match_value q v :
  v = value_of q → eq_match q (Some v) = true.
Proof.
  intros ->. destruct q; simpl; by apply bool_decide_eq_true_2.
Qed.

(** X12: when the product collection holds no more documents than the
    limit, [list_products] leaves out no product that is active and passes
    the filters that are given: its document, with [_id] as a string, is in
    the answer. *)
Theorem list_products_complete (q category : option string)
    (featured : option bool) (limit : option Z) (db db' : database)
    (docs : list dict) (d : document) :
  list_products q category featured limit db = (Return docs, db') →
  (Z.of_nat (length (coll db "product")) ≤ default 100 limit)%Z →
  d ∈ coll db "product" →
  fields d !! "is_active" = Some (VBool true) →
  (∀ c, category = Some c → c ≠ "" → fields d !! "category" = Some (VStr c)) →
  (∀ b, featured = Some b → fields d !! "is_featured" = Some (VBool b)) →
  (∀ p, q = Some p → p ≠ "" → pattern_found p (fields d)) →
  <["_id" := VStr (py_str (VOid (oid d)))]> (fields d) ∈ docs.
Proof.
  intros Hret Hlen Hd Hact Hcat Hfeat Hq.
  rewrite list_products_unfold in Hret. cbv zeta in Hret.
  destruct (negb _); [discriminate|].
  destruct (query_ok _) eqn:Hok; [|discriminate].
  injection Hret as <- <-.
  rewrite <- to_dict_as_dict. apply list_elem_of_fmap_2.
  set (n := default 100%Z limit) in *.
  rewrite take_ge.
  2:{ rewrite length_fmap.
      assert (Hfl : length (List.filter (matches (products_filter q category featured))
                              (coll db "product")) ≤ length (coll db "product")).
      { clear. induction (coll db "product") as [|a l IH]; [done|].
        cbn [List.filter]. destruct (matches _ a); cbn [length]; lia. }
      lia. }
  apply list_elem_of_fmap_2, list_elem_of_In, filter_In.
  split; [by apply list_elem_of_In|].
  unfold matches, products_filter. rewrite !forallb_app.
  cbn [forallb clause_holds cond_holds].
  rewrite Hact, (eq_match_value (QBool true)) by done. cbn [andb].
  assert (Hc : forallb (clause_holds d)
                 (if truthy_str category
                  then [Field "category" (Equals (QStr (default "" category)))]
                  else []) = true).
  { destruct category as [c|]; [|done].
    destruct (truthy_str (Some c)) eqn:Ht; [|done].
    apply truthy_str_Some in Ht. simpl.
    by rewrite (Hcat c eq_refl Ht), (eq_match_value (QStr c)). }
  assert (Hf : forallb (clause_holds d)
                 match featured with
                 | Some b => [Field "is_featured" (Equals (QBool b))]
                 | None => []
                 end = true).
  { destruct featured as [b|]; [|done]. simpl.
    by rewrite (Hfeat b eq_refl), (eq_match_value (QBool b)). }
  assert (Hp : forallb (clause_holds d)
                 (if truthy_str q
                  then [Or [("name", RegexI (default "" q));
                            ("description", RegexI (default "" q));
                            ("short_description", RegexI (default "" q))]]
                  else []) = true).
  { destruct q as [p|]; [|done].
    destruct (truthy_str (Some p)) eqn:Ht; [|done].
    apply truthy_str_Some in Ht.
    destruct (Hq p eq_refl Ht) as (re & k & s & Hre & Hk & Hks & Hres).
    simpl. rewrite Hre, andb_true_r, orb_false_r.
    assert (Hone : regex_match re (fields d !! k) = true) by (by rewrite Hks).
    rewrite !orb_true_iff.
    apply elem_of_cons in Hk as [->|Hk]; [by left|].
    apply elem_of_cons in Hk as [->|Hk]; [by right; left|].
    apply list_elem_of_singleton in Hk as ->. by right; right. }
  by rewrite Hc, Hf, Hp.
Qed.

End ListingFacts.


(** ** The theorems at concrete requests *)

Import Demo.
#[local] Existing Instance ascii_platform.

Ltac by_evaluation := vm_compute; reflexivity.

Lemma create_order_price_witness :
  List.find (matches (by_slug (OrderCreate.product_slug buy)))
            (coll seeded "product") = Some canva
  ∧ ∀ resp db', create_order e0 buy seeded = (Return resp, db') →
      ∃ b f o,
        (OrderCreate.package buy, f) ∈ package_factors
        ∧ py_float (default (VInt 0) (fields canva !! "price_monthly")) = Return b
        ∧ resp !! "amount" = Some (VFloat (b * f)%float)
        ∧ coll db' "order" = coll seeded "order" ++ [o]
        ∧ fields o !! "price" = Some (VFloat (b * f)%float).
Proof.
  assert (Hfind : List.find (matches (by_slug (OrderCreate.product_slug buy)))
                    (coll seeded "product") = Some canva) by by_evaluation.
  split; [exact Hfind|].
  exact (proj1 (proj2 (create_order_price e0 buy seeded canva Hfind))).
Defined.

Lemma payment_notify_spec_witness :
  NoDup (oid <$> coll ordered "order")
  ∧ ∃ resp db' i o',
      payment_notify e0 paid ordered = (Return resp, db')
      ∧ resp !! "updated" = Some (VBool true)
      ∧ resp !! "status" = Some (VStr (stored_status (PaymentNotify.status paid)))
      ∧ coll ordered "order" !! i = Some placed
      ∧ coll db' "order" = <[i := o']> (coll ordered "order")
      ∧ oid o' = oid placed
      ∧ fields o' !! "status"
        = Some (VStr (stored_status (PaymentNotify.status paid)))
      ∧ (∀ k, k ∉ ["status"; "delivered_payload"; "updated_at"] →
              fields o' !! k = fields placed !! k)
      ∧ (∀ c, c ≠ "order" → coll db' c = coll ordered c).
Proof.
  assert (Hnd : NoDup (oid <$> coll ordered "order")) by compute_done.
  split; [exact Hnd|].
  apply (proj1 (payment_notify_spec e0 paid ordered Hnd) placed).
  by_evaluation.
Defined.

Lemma delivered_credentials_witness :
  NoDup (oid <$> coll ordered "order")
  ∧ PaymentNotify.status paid = "paid"
  ∧ List.find (matches (by_order_code (PaymentNotify.order_code paid)))
              (coll ordered "order") = Some placed
  ∧ ∃ resp db' i o',
      payment_notify e0 paid ordered = (Return resp, db')
      ∧ resp !! "delivered_payload"
        = Some (VDict (credentials (PaymentNotify.order_code paid)))
      ∧ coll ordered "order" !! i = Some placed
      ∧ coll db' "order" = <[i := o']> (coll ordered "order")
      ∧ oid o' = oid placed
      ∧ fields o' !! "delivered_payload"
        = Some (VDict (credentials (PaymentNotify.order_code paid)))
      ∧ credentials (PaymentNotify.order_code paid) !! "username"
        = Some (VStr ("demo_" +:+ str_lower (PaymentNotify.order_code paid)
                      +:+ "@nasirstore.io"))
      ∧ credentials (PaymentNotify.order_code paid) !! "password"
        = Some (VStr "AutoGenerated123!").
Proof.
  assert (Hnd : NoDup (oid <$> coll ordered "order")) by compute_done.
  assert (Hpaid : PaymentNotify.status paid = "paid") by reflexivity.
  assert (Hfind : List.find (matches (by_order_code (PaymentNotify.order_code paid)))
                    (coll ordered "order") = Some placed) by by_evaluation.
  refine (conj Hnd (conj Hpaid (conj Hfind _))).
  exact (delivered_credentials e0 paid ordered placed Hnd Hpaid Hfind).
Defined.

Lemma returned_receipt (x : outcome dict * database) (r : dict) :
  x.1 = Return r → x = (Return (receipt x), x.2).
Proof. destruct x as [[r'|err] db]; unfold receipt; simpl; congruence. Qed.

Lemma payment_by_method_alone_witness :
  create_order e0 buy seeded
  = (Return (receipt (create_order e0 buy seeded)), ordered)
  ∧ create_order e1 buy2 seeded
    = (Return (receipt (create_order e1 buy2 seeded)),
       (create_order e1 buy2 seeded).2)
  ∧ OrderCreate.payment_method buy = OrderCreate.payment_method buy2
  ∧ receipt (create_order e0 buy seeded) !! "payment"
    = receipt (create_order e1 buy2 seeded) !! "payment".
Proof.
  assert (H1 : create_order e0 buy seeded
               = (Return (receipt (create_order e0 buy seeded)), ordered))
    by (apply (returned_receipt _ (order_response e0 buy canva 60000%float));
        by_evaluation).
  assert (H2 : create_order e1 buy2 seeded
               = (Return (receipt (create_order e1 buy2 seeded)),
                  (create_order e1 buy2 seeded).2))
    by (apply (returned_receipt _ (receipt (create_order e1 buy2 seeded)));
        by_evaluation).
  assert (Hm : OrderCreate.payment_method buy = OrderCreate.payment_method buy2)
    by reflexivity.
  refine (conj H1 (conj H2 (conj Hm _))).
  exact (proj1 (payment_by_method_alone e0 e1 buy buy2 seeded seeded _ _ _ _ H1 H2 Hm)).
Defined.

Lemma get_product_spec_witness :
  scalars ["slug"; "is_active"] (coll seeded "product") = true
  ∧ ∃ r, (get_product "canva-pro" seeded).1 = Return r.
Proof.
  assert (Hsc : scalars ["slug"; "is_active"] (coll seeded "product") = true)
    by by_evaluation.
  split; [exact Hsc|].
  apply (proj1 (proj2 (get_product_spec "canva-pro" seeded Hsc))).
  exists canva. split; [|by split].
  change (coll seeded "product") with (imap stocked samples).
  do 2 right. left.
Defined.

Lemma list_products_spec_witness :
  scalars ["is_active"; "category"; "is_featured";
           "name"; "description"; "short_description"] (coll seeded "product") = true
  ∧ ∃ docs, list_products (Some "PREMIUM") (Some "Streaming") (Some false) None seeded
            = (Return docs, seeded).
Proof.
  assert (Hsc : scalars ["is_active"; "category"; "is_featured";
                         "name"; "description"; "short_description"]
                        (coll seeded "product") = true) by by_evaluation.
  split; [exact Hsc|].
  apply (proj1 (proj2 (proj2 (list_products_spec (Some "PREMIUM") (Some "Streaming")
                                (Some false) None seeded Hsc)))).
  - simpl. lia.
  - intros _. by eexists.
Defined.

Lemma create_testimonial_contact_frame_witness :
  Testimonial.valid praise = true
  ∧ (new_oid e0 0 ∉ (oid <$> coll seeded "testimonial"))
  ∧ (new_oid e0 0 ∉ (oid <$> coll seeded "contactmessage"))
  ∧ ∃ db', create_testimonial e0 praise seeded
           = (Return {[ "inserted_id" := VStr (py_str (VOid (new_oid e0 0))) ]}, db')
      ∧ coll db' "testimonial"
        = coll seeded "testimonial"
          ++ [{| oid := new_oid e0 0; fields := Testimonial.dump praise |}]
      ∧ ∀ c, c ≠ "testimonial" → db' !! c = seeded !! c.
Proof.
  assert (Hv : Testimonial.valid praise = true) by reflexivity.
  assert (Ht : new_oid e0 0 ∉ (oid <$> coll seeded "testimonial")) by compute_done.
  assert (Hc : new_oid e0 0 ∉ (oid <$> coll seeded "contactmessage")) by compute_done.
  refine (conj Hv (conj Ht (conj Hc _))).
  exact (proj1 (create_testimonial_contact_frame e0 praise question seeded Hv Ht Hc)).
Defined.

(** C8 as stated fails: a stored inactive product and a package of the
    table do not make [create_order] succeed (a payment method outside the
    Order schema is refused), and do not make [get_product] raise 404 (an
    active product may share the slug). *)
Lemma inactive_product_not_always_sold :
  (retired ∈ coll shelf "product"
   ∧ fields retired !! "is_active" = Some (VBool false)
   ∧ fields retired !! "slug" = Some (VStr (OrderCreate.product_slug (buy_old "Cash")))
   ∧ OrderCreate.package (buy_old "Cash") ∈ package_factors.*1
   ∧ create_order e0 (buy_old "Cash") shelf = (Raise ValidationError, shelf))
  ∧ (retired ∈ coll shelf2 "product"
     ∧ fields retired !! "is_active" = Some (VBool false)
     ∧ fields retired !! "slug" = Some (VStr "old-plan")
     ∧ (get_product "old-plan" shelf2).1 = Return (to_dict (as_dict relaunched))).
Proof.
  split.
  - split; [change (coll shelf "product") with [retired]; left|].
    split; [reflexivity|]. split; [reflexivity|].
    split; [compute_done|by_evaluation].
  - split; [change (coll shelf2 "product") with [retired; relaunched]; left|].
    split; [reflexivity|]. split; [reflexivity|]. by_evaluation.
Qed.

Lemma inactive_product_sold_witness :
  retired ∈ coll shelf "product"
  ∧ fields retired !! "slug" = Some (VStr (OrderCreate.product_slug (buy_old "QRIS")))
  ∧ fields retired !! "is_active" = Some (VBool false)
  ∧ (∀ d', d' ∈ coll shelf "product" →
           matches (by_slug (OrderCreate.product_slug (buy_old "QRIS"))) d' = true →
           d' = retired)
  ∧ (OrderCreate.package (buy_old "QRIS"), 1%float) ∈ package_factors
  ∧ priced retired 10000%float
  ∧ (0 <=? 10000 * 1)%float = true
  ∧ accepted (buy_old "QRIS")
  ∧ (new_oid e0 0 ∉ (oid <$> coll shelf "order"))
  ∧ (get_product (OrderCreate.product_slug (buy_old "QRIS")) shelf).1
    = Raise (HTTPException 404 "Product not found").
Proof.
  assert (Hd : retired ∈ coll shelf "product")
    by (change (coll shelf "product") with [retired]; left).
  assert (Hslug : fields retired !! "slug"
                  = Some (VStr (OrderCreate.product_slug (buy_old "QRIS"))))
    by reflexivity.
  assert (Hina : fields retired !! "is_active" = Some (VBool false)) by reflexivity.
  assert (Honly : ∀ d', d' ∈ coll shelf "product" →
            matches (by_slug (OrderCreate.product_slug (buy_old "QRIS"))) d' = true →
            d' = retired).
  { intros d' Hin _. change (coll shelf "product") with [retired] in Hin.
    by apply list_elem_of_singleton in Hin. }
  assert (Hf : (OrderCreate.package (buy_old "QRIS"), 1%float) ∈ package_factors)
    by (unfold package_factors; simpl; left).
  assert (Hpr : priced retired 10000%float).
  { split; [by eexists|reflexivity]. }
  assert (Hpos : (0 <=? 10000 * 1)%float = true) by reflexivity.
  assert (Hacc : accepted (buy_old "QRIS")).
  { split; [by eexists|]. split; compute_done. }
  assert (Hfresh : new_oid e0 0 ∉ (oid <$> coll shelf "order")) by compute_done.
  refine (conj Hd (conj Hslug (conj Hina (conj Honly (conj Hf (conj Hpr
            (conj Hpos (conj Hacc (conj Hfresh _))))))))).
  exact (proj1 (inactive_product_sold e0 (buy_old "QRIS") shelf retired
                  10000%float 1%float Hd Hslug Hina Honly Hf Hpr Hpos Hacc Hfresh)).
Defined.


(** ** The endpoints on the demo store *)

Example samples_valid : forallb Product.valid samples = true.
Proof. by_evaluation. Qed.

Example seed_empty_store :
  seed_products e0 ∅ = (Raise InvalidDocument, ∅)
  ∧ seed_products e0 seeded = (Return already_seeded, seeded)
  ∧ oid <$> coll seeded "product" = [100; 101; 102; 103; 104]%N.
Proof. split; [by_evaluation|]. split; by_evaluation. Qed.

Example order_code_of_clock : generate_order_code e0 = "NS-20240507090341".
Proof. reflexivity. Qed.

Example canva_three_months :
  receipt (create_order e0 buy seeded) !! "amount" = Some (VFloat 60000%float)
  ∧ fields placed !! "price" = Some (VFloat 60000%float)
  ∧ fields placed !! "status" = Some (VStr "pending").
Proof. repeat split; by_evaluation. Qed.

Example unknown_package :
  (create_order e0 {| OrderCreate.product_slug := "canva-pro";
                      OrderCreate.package := "2 Months";
                      OrderCreate.buyer_name := "Ana";
                      OrderCreate.email := "ana@example.org";
                      OrderCreate.whatsapp := "0811";
                      OrderCreate.payment_method := "QRIS";
                      OrderCreate.delivery_channel := "email" |} seeded).1
  = Raise (HTTPException 400 "Invalid package").
Proof. by_evaluation. Qed.

Example search_featured_off :
  match (list_products (Some "PREMIUM") None (Some false) None seeded).1 with
  | Return docs => (λ r : dict, r !! "name") <$> docs
  | Raise _ => []
  end
  = [Some (VStr "ChatGPT Plus"); Some (VStr "YouTube Premium")].
Proof. by_evaluation. Qed.

Example paid_then_delivered :
  (λ o, fields o !! "status") <$> coll (payment_notify e0 paid ordered).2 "order"
  = [Some (VStr "delivered")].
Proof. by_evaluation. Qed.

Example int_to_float :
  float_of_int 20 = Some 20%float
  ∧ float_of_int (2 ^ 53 + 1) = Some 9007199254740992%float
  ∧ float_of_int (10 ^ 400) = None.
Proof. repeat split; by_evaluation. Qed.


(** ** The further properties at concrete requests *)

Import Tour.

Lemma first_order_placed :
  create_order e0 buy seeded
  = (Return (receipt (create_order e0 buy seeded)), ordered).
Proof.
  apply (returned_receipt _ (order_response e0 buy canva 60000%float)).
  by_evaluation.
Qed.

Lemma second_order_placed :
  create_order e0' buy2 ordered
  = (Return (receipt (create_order e0' buy2 ordered)), crowded).
Proof.
  apply (returned_receipt _ (receipt (create_order e0' buy2 ordered))).
  by_evaluation.
Qed.

Lemma order_code_identifies_second_witness :
  is_datetime (utcnow e0) ∧ is_datetime (utcnow e0')
  ∧ (generate_order_code e0 = generate_order_code e0'
     ↔ same_second (utcnow e0) (utcnow e0')).
Proof.
  assert (H0 : is_datetime (utcnow e0)) by (unfold is_datetime; simpl; lia).
  assert (H1 : is_datetime (utcnow e0')) by (unfold is_datetime; simpl; lia).
  refine (conj H0 (conj H1 _)).
  exact (proj2 (order_code_identifies_second e0 e0' H0 H1)).
Defined.

Lemma fallback_instruction_unused_witness :
  create_order e0 buy seeded
  = (Return (receipt (create_order e0 buy seeded)), ordered)
  ∧ ∃ entry,
      instruction_table !! OrderCreate.payment_method buy = Some entry
      ∧ receipt (create_order e0 buy seeded) !! "payment" = Some (VDict entry)
      ∧ entry ≠ fallback_instruction
      ∧ receipt (create_order e0 buy seeded) !! "payment"
        ≠ Some (VDict fallback_instruction).
Proof.
  refine (conj first_order_placed _).
  exact (fallback_instruction_unused e0 buy seeded ordered _ first_order_placed).
Defined.

Lemma get_order_spec_witness :
  scalars ["order_code"] (coll ordered "order") = true
  ∧ (get_order code0 ordered).2 = ordered.
Proof.
  assert (Hsc : scalars ["order_code"] (coll ordered "order") = true)
    by by_evaluation.
  refine (conj Hsc _).
  exact (proj1 (get_order_spec code0 ordered Hsc)).
Defined.

Lemma created_order_is_found_witness :
  create_order e0 buy seeded
  = (Return (receipt (create_order e0 buy seeded)), ordered)
  ∧ List.find (matches (by_order_code (generate_order_code e0)))
              (coll seeded "order") = None
  ∧ receipt (create_order e0 buy seeded) !! "order_code"
    = Some (VStr (generate_order_code e0)).
Proof.
  assert (Hnone : List.find (matches (by_order_code (generate_order_code e0)))
                    (coll seeded "order") = None) by by_evaluation.
  refine (conj first_order_placed (conj Hnone _)).
  exact (proj1 (created_order_is_found e0 buy seeded ordered _
                  first_order_placed Hnone)).
Defined.

Lemma repeated_notification_witness :
  NoDup (oid <$> coll ordered "order")
  ∧ payment_notify e1 paid (payment_notify e0 paid ordered).2
    = payment_notify e1 paid ordered.
Proof.
  assert (Hnd : NoDup (oid <$> coll ordered "order")) by compute_done.
  refine (conj Hnd _).
  exact (repeated_notification e0 e1 paid ordered Hnd).
Defined.

Lemma late_failure_keeps_credentials_witness :
  NoDup (oid <$> coll ordered "order")
  ∧ List.find (matches (by_order_code code0)) (coll ordered "order") = Some placed
  ∧ "expired" ≠ "paid"
  ∧ ∃ resp db2 i o2,
      payment_notify e1 (notification code0 "expired")
        (payment_notify e0 (notification code0 "paid") ordered).2 = (Return resp, db2)
      ∧ resp !! "status" = Some (VStr "failed")
      ∧ resp !! "delivered_payload" = None
      ∧ coll db2 "order" !! i = Some o2
      ∧ oid o2 = oid placed
      ∧ fields o2 !! "status" = Some (VStr "failed")
      ∧ fields o2 !! "delivered_payload" = Some (VDict (credentials code0)).
Proof.
  assert (Hnd : NoDup (oid <$> coll ordered "order")) by compute_done.
  assert (Hfind : List.find (matches (by_order_code code0)) (coll ordered "order")
                  = Some placed) by by_evaluation.
  assert (Hs : "expired" ≠ "paid") by discriminate.
  refine (conj Hnd (conj Hfind (conj Hs _))).
  exact (late_failure_keeps_credentials e0 e1 code0 "expired" ordered placed
           Hnd Hfind Hs).
Defined.

Lemma paid_order_is_delivered_witness :
  NoDup (oid <$> coll seeded "order")
  ∧ create_order e0 buy seeded
    = (Return (receipt (create_order e0 buy seeded)), ordered)
  ∧ List.find (matches (by_order_code (generate_order_code e0)))
              (coll seeded "order") = None
  ∧ ∃ resp2 db'' r,
      payment_notify e1 (notification (generate_order_code e0) "paid") ordered
      = (Return resp2, db'')
      ∧ resp2 !! "status" = Some (VStr "delivered")
      ∧ get_order (generate_order_code e0) db'' = (Return r, db'')
      ∧ r !! "status" = Some (VStr "delivered")
      ∧ r !! "delivered_payload"
        = Some (VDict (credentials (generate_order_code e0)))
      ∧ r !! "delivered_payload" = resp2 !! "delivered_payload"
      ∧ r !! "updated_at" = Some (VDate (to_millis (utcnow e1)))
      ∧ r !! "price" = receipt (create_order e0 buy seeded) !! "amount"
      ∧ r !! "_id" = receipt (create_order e0 buy seeded) !! "order_id".
Proof.
  assert (Hnd : NoDup (oid <$> coll seeded "order")) by compute_done.
  assert (Hnone : List.find (matches (by_order_code (generate_order_code e0)))
                    (coll seeded "order") = None) by by_evaluation.
  refine (conj Hnd (conj first_order_placed (conj Hnone _))).
  exact (paid_order_is_delivered e0 e1 buy seeded ordered _ Hnd
           first_order_placed Hnone).
Defined.

Lemma same_second_orders_witness :
  NoDup (oid <$> coll seeded "order")
  ∧ create_order e0 buy seeded
    = (Return (receipt (create_order e0 buy seeded)), ordered)
  ∧ create_order e0' buy2 ordered
    = (Return (receipt (create_order e0' buy2 ordered)), crowded)
  ∧ same_second (utcnow e0) (utcnow e0')
  ∧ utcnow e0 ≠ utcnow e0'
  ∧ receipt (create_order e0 buy seeded) !! "order_code"
    = receipt (create_order e0' buy2 ordered) !! "order_code"
  ∧ receipt (create_order e0' buy2 ordered) !! "order_code"
    = Some (VStr (generate_order_code e0'))
  ∧ ∃ j o2,
      j = length (coll ordered "order")
      ∧ coll crowded "order" !! j = Some o2
      ∧ oid o2 = new_oid e0' 0
      ∧ fields o2 !! "order_code"
        = receipt (create_order e0' buy2 ordered) !! "order_code"
      ∧ fields o2 !! "status" = Some (VStr "pending")
      ∧ ∀ trace,
          coll (run trace crowded) "order" !! j = Some o2
          ∧ ∃ k o,
              k < j
              ∧ coll (run trace crowded) "order" !! k = Some o
              ∧ oid o ≠ oid o2
              ∧ get_order (generate_order_code e0') (run trace crowded)
                = (Return (to_dict (as_dict o)), run trace crowded).
Proof.
  assert (Hnd : NoDup (oid <$> coll seeded "order")) by compute_done.
  assert (Hclock : same_second (utcnow e0) (utcnow e0')) by (by repeat split).
  assert (Hne : utcnow e0 ≠ utcnow e0') by discriminate.
  refine (conj Hnd (conj first_order_placed (conj second_order_placed
            (conj Hclock (conj Hne _))))).
  exact (same_second_orders e0 e0' buy buy2 seeded ordered crowded _ _
           Hnd first_order_placed second_order_placed Hclock).
Defined.

Lemma list_products_complete_witness :
  list_products (Some "PLAN") None None (Some 2%Z) shelf2
  = (Return [to_dict (as_dict relaunched)], shelf2)
  ∧ (Z.of_nat (length (coll shelf2 "product")) ≤ default 100 (Some 2))%Z
  ∧ relaunched ∈ coll shelf2 "product"
  ∧ fields relaunched !! "is_active" = Some (VBool true)
  ∧ (∀ c, None = Some c → c ≠ "" →
          fields relaunched !! "category" = Some (VStr c))
  ∧ (∀ b, None = Some b → fields relaunched !! "is_featured" = Some (VBool b))
  ∧ (∀ p, Some "PLAN" = Some p → p ≠ "" → pattern_found p (fields relaunched))
  ∧ <["_id" := VStr (py_str (VOid (oid relaunched)))]> (fields relaunched)
    ∈ [to_dict (as_dict relaunched)].
Proof.
  assert (Hret : list_products (Some "PLAN") None None (Some 2%Z) shelf2
                 = (Return [to_dict (as_dict relaunched)], shelf2))
    by by_evaluation.
  assert (Hlen : (Z.of_nat (length (coll shelf2 "product")) ≤ default 100 (Some 2))%Z)
    by (vm_compute; discriminate).
  assert (Hd : relaunched ∈ coll shelf2 "product").
  { change (coll shelf2 "product") with [retired; relaunched]. right. left. }
  assert (Hact : fields relaunched !! "is_active" = Some (VBool true))
    by reflexivity.
  assert (Hcat : ∀ c, None = Some c → c ≠ "" →
                      fields relaunched !! "category" = Some (VStr c))
    by (intros c Hc; discriminate Hc).
  assert (Hfeat : ∀ b, None = Some b →
                       fields relaunched !! "is_featured" = Some (VBool b))
    by (intros b Hb; discriminate Hb).
  assert (Hq : ∀ p, Some "PLAN" = Some p → p ≠ "" →
                    pattern_found p (fields relaunched)).
  { intros p [= <-] _.
    exists (λ s, contains (lower "PLAN") (lower s)), "name", "Old Plan".
    split; [reflexivity|]. split; [left|]. split; reflexivity. }
  refine (conj Hret (conj Hlen (conj Hd (conj Hact (conj Hcat (conj Hfeat
            (conj Hq _))))))).
  exact (list_products_complete (Some "PLAN") None None (Some 2%Z) shelf2 shelf2
           _ relaunched Hret Hlen Hd Hact Hcat Hfeat Hq).
Defined.

(** *** The same on the demo store *)

Example second_order_unreachable :
  (λ o, (oid o, fields o !! "status"))
    <$> coll (run [(e1, Notify (notification code0 "paid"));
                   (e1, Notify (notification code0 "expired"));
                   (e1, Notify (notification code0 "paid"))] crowded) "order"
  = [(100%N, Some (VStr "delivered")); (300%N, Some (VStr "pending"))].
Proof. by_evaluation. Qed.

Example stored_to_the_millisecond :
  (λ o, fields o !! "updated_at") <$> coll (payment_notify e0 paid ordered).2 "order"
  = [Some (VDate (to_millis (utcnow e0)))]
  ∧ microsecond (utcnow e0) = 250999%N
  ∧ microsecond (to_millis (utcnow e0)) = 250000%N.
Proof. split; [by_evaluation|]. split; by_evaluation. Qed.
